(** * dbt-duckdb: the connection manager of [dbt/adapters/duckdb/connections.py]

    A shallow embedding of the adapter's connection layer: the credentials
    record, the cursor and connection wrappers and the connection manager
    ([__init__], [open], [exception_handler]), written in a small
    state-and-exception monad in which a raised exception keeps the effects
    performed before it, as in Python. *)

From Stdlib Require Import String List Bool Arith ZArith Lia.
Import ListNotations.
Local Open Scope string_scope.

(* ------------------------------------------------------------------ *)
(** * Python exceptions *)
(* ------------------------------------------------------------------ *)

Module Py.

(** Modelled from the spec: the exception classes are declared by Python and
    by the host framework ([dbt.exceptions]), not by this repository.  The
    host's [RuntimeException] derives from the built-in [RuntimeError] (this is
    what lets the [except RuntimeError] clause of [open] turn the
    configuration error into a failed connection), and
    [FailedToConnectException] derives from it through [DatabaseException].
    [KeyboardInterrupt], [ValueError], [StopIteration] and
    [NotImplementedError] stand for the classes the engine or the host may
    raise besides; [StopIteration] is the one class the context manager
    protocol treats on its own. *)
Inductive pyclass :=
| BaseException
| KeyboardInterrupt
| Exception
| ValueError
| StopIteration
| RuntimeError
| NotImplementedError
| dbt_Exception
| RuntimeException
| DatabaseException
| FailedToConnectException.

Definition pyclass_eqb (c d : pyclass) : bool :=
  match c, d with
  | BaseException, BaseException
  | KeyboardInterrupt, KeyboardInterrupt
  | Exception, Exception
  | ValueError, ValueError
  | StopIteration, StopIteration
  | RuntimeError, RuntimeError
  | NotImplementedError, NotImplementedError
  | dbt_Exception, dbt_Exception
  | RuntimeException, RuntimeException
  | DatabaseException, DatabaseException
  | FailedToConnectException, FailedToConnectException => true
  | _, _ => false
  end.

(** The direct base classes, as in the [class C(B1, B2)] headers. *)
Definition bases (c : pyclass) : list pyclass :=
  match c with
  | BaseException => []
  | KeyboardInterrupt => [BaseException]
  | Exception => [BaseException]
  | ValueError => [Exception]
  | StopIteration => [Exception]
  | RuntimeError => [Exception]
  | NotImplementedError => [RuntimeError]
  | dbt_Exception => [Exception]
  | RuntimeException => [RuntimeError; dbt_Exception]
  | DatabaseException => [RuntimeException]
  | FailedToConnectException => [DatabaseException]
  end.

Fixpoint issubclass_fuel (fuel : nat) (c d : pyclass) : bool :=
  pyclass_eqb c d ||
  match fuel with
  | O => false
  | S fuel' => existsb (fun b => issubclass_fuel fuel' b d) (bases c)
  end.

(** The hierarchy above is five levels deep. *)
Definition issubclass : pyclass -> pyclass -> bool := issubclass_fuel 5.

(** An exception object: its class, the argument it was constructed with and
    its [__cause__] (set by [raise ... from ...]). *)
Unset Elimination Schemes.
Inductive exn : Type :=
  MkExn { exn_class : pyclass; exn_msg : string; exn_cause : option exn }.
Set Elimination Schemes.

Definition isinstance (e : exn) (c : pyclass) : bool :=
  issubclass (exn_class e) c.

(** [exc is value]: object identity of two exceptions, read as equality of
    what they hold.  The code at hand builds one new exception object only,
    with the thrown one as its cause, and that one never equals the thrown
    one; everything else it raises is the object it was given. *)
Fixpoint exn_eqb (a b : exn) : bool :=
  match a, b with
  | MkExn c1 m1 k1, MkExn c2 m2 k2 =>
      pyclass_eqb c1 c2 && String.eqb m1 m2 &&
      match k1, k2 with
      | None, None => true
      | Some x, Some y => exn_eqb x y
      | _, _ => false
      end
  end.

(** [exc.__cause__ is value]. *)
Definition cause_is (exc value : exn) : bool :=
  match exn_cause exc with
  | Some c => exn_eqb c value
  | None => false
  end.

(** [str(x)] of an optional string inside an f-string: [None] prints as the
    word None. *)
Definition fstr (o : option string) : string :=
  match o with
  | Some s => s
  | None => "None"
  end.

End Py.
Import Py.

(* ------------------------------------------------------------------ *)
(** * Data model *)
(* ------------------------------------------------------------------ *)

(** [dbt.contracts.connection.ConnectionState]. *)
Inductive ConnectionState := INIT | OPEN | CLOSED | FAIL.

Definition ConnectionState_eqb (a b : ConnectionState) : bool :=
  match a, b with
  | INIT, INIT | OPEN, OPEN | CLOSED, CLOSED | FAIL, FAIL => true
  | _, _ => false
  end.

Record DuckDBCredentials := {
  database : string;
  schema : string;
  path : string;
  extensions : option (list string);
  s3_region : option string;
  s3_access_key_id : option string;
  s3_secret_access_key : option string;
  s3_session_token : option string
}.

(** The dataclass defaults. *)
Definition default_credentials : DuckDBCredentials := {|
  database := "main";
  schema := "main";
  path := ":memory:";
  extensions := None;
  s3_region := None;
  s3_access_key_id := None;
  s3_secret_access_key := None;
  s3_session_token := None
|}.

Definition _connection_keys : list string := ["database"; "schema"; "path"].

(** Engine objects (connections, cursors) are known by an identifier. *)
Definition obj := nat.

(** What an engine call returns: an opaque Python object. *)
Definition value := nat.

(** The calls the adapter makes on the engine library. *)
Inductive call :=
| Connect (db_path : string) (read_only : bool)
| Cursor (conn : obj)
| Execute (target : obj) (sql : string)
| ExecuteBind (target : obj) (sql : string) (bindings : list string).

Module DuckDBCursorWrapper.
Record t := { _cursor : obj }.
End DuckDBCursorWrapper.

Module DuckDBConnectionWrapper.
Record t := { _conn : obj; _cursor : DuckDBCursorWrapper.t }.
End DuckDBConnectionWrapper.

(** The host's connection object, as far as the adapter touches it. *)
Record Connection := {
  state : ConnectionState;
  handle : option DuckDBConnectionWrapper.t;
  credentials : DuckDBCredentials
}.

(** Connection objects are mutated in place: they live in a store and are
    passed around by reference. *)
Definition ref := nat.

Record World := {
  calls : list call;            (* engine calls made so far, oldest first *)
  debug_log : list string;      (* [logger.debug] lines, oldest first *)
  heap : ref -> Connection
}.

(* ------------------------------------------------------------------ *)
(** * The state-and-exception monad *)
(* ------------------------------------------------------------------ *)

Inductive outcome (A : Type) :=
| Normal (a : A)
| Raised (e : exn).
Arguments Normal {A} a.
Arguments Raised {A} e.

Definition M (A : Type) : Type := World -> outcome A * World.

Definition ret {A} (a : A) : M A := fun w => (Normal a, w).

Definition bind {A B} (m : M A) (k : A -> M B) : M B :=
  fun w =>
    match m w with
    | (Normal a, w') => k a w'
    | (Raised e, w') => (Raised e, w')
    end.

Definition raise {A} (e : exn) : M A := fun w => (Raised e, w).

Declare Scope py_scope.
Delimit Scope py_scope with py.
Notation "x <- m ;; k" := (bind m (fun x => k))
  (at level 61, m at next level, right associativity) : py_scope.
Notation "m ;; k" := (bind m (fun _ => k))
  (at level 61, right associativity) : py_scope.
Local Open Scope py_scope.

(** The [except C as e:] clauses of a [try], tried in order; an exception no
    clause matches keeps propagating. *)
Fixpoint dispatch {A} (clauses : list (pyclass * (exn -> M A))) (e : exn) : M A :=
  match clauses with
  | [] => raise e
  | (c, h) :: rest => if isinstance e c then h e else dispatch rest e
  end.

Definition try_except {A} (body : M A) (clauses : list (pyclass * (exn -> M A))) : M A :=
  fun w =>
    match body w with
    | (Normal a, w') => (Normal a, w')
    | (Raised e, w') => dispatch clauses e w'
    end.

(** [gen.throw(value)] on a generator suspended at its only [yield], where
    [after_yield] is what the generator does with an exception raised at the
    [yield].  A normal end stands for the generator running to its end
    ([throw] then raises a new [StopIteration]); a [StopIteration] that leaves
    the generator's body is turned into a [RuntimeError] with that cause. *)
Definition generator_throw (after_yield : exn -> M unit) (value : exn) : M unit :=
  fun w =>
    match after_yield value w with
    | (Normal a, w') => (Normal a, w')
    | (Raised exc, w') =>
        if isinstance exc StopIteration
        then (Raised (MkExn RuntimeError "generator raised StopIteration" (Some exc)), w')
        else (Raised exc, w')
    end.

(** [_GeneratorContextManager.__exit__] of [contextlib] for a body that raised
    [value]: it returns whether the exception is suppressed, or raises. *)
Definition contextmanager_exit (after_yield : exn -> M unit) (value : exn) : M bool :=
  fun w =>
    match generator_throw after_yield value w with
    | (Normal _, w') => (Normal true, w')
    | (Raised exc, w') =>
        if isinstance exc RuntimeError then
          if exn_eqb exc value then (Normal false, w')
          else if isinstance value StopIteration && cause_is exc value
               then (Normal false, w')
               else (Raised exc, w')
        else
          if exn_eqb exc value then (Normal false, w') else (Raised exc, w')
    end.

(** [with cm: body] for a context manager made by [@contextmanager] from a
    generator that does nothing before its [yield] and nothing after it when
    the body ends normally. *)
Definition with_contextmanager (after_yield : exn -> M unit) (body : M unit) : M unit :=
  fun w =>
    match body w with
    | (Normal a, w') => (Normal a, w')
    | (Raised value, w') =>
        match contextmanager_exit after_yield value w' with
        | (Normal true, w'') => (Normal tt, w'')
        | (Normal false, w'') => (Raised value, w'')
        | (Raised exc, w'') => (Raised exc, w'')
        end
    end.

Fixpoint for_each {A} (l : list A) (body : A -> M unit) : M unit :=
  match l with
  | [] => ret tt
  | x :: rest => body x ;; for_each rest body
  end.

Definition logger_debug (line : string) : M unit :=
  fun w => (Normal tt, {| calls := calls w;
                          debug_log := debug_log w ++ [line];
                          heap := heap w |}).

Definition read (r : ref) : M Connection :=
  fun w => (Normal (heap w r), w).

Definition update (r : ref) (f : Connection -> Connection) : M unit :=
  fun w => (Normal tt, {| calls := calls w;
                          debug_log := debug_log w;
                          heap := fun r' => if Nat.eqb r' r then f (heap w r) else heap w r' |}).

Definition set_handle (r : ref) (h : option DuckDBConnectionWrapper.t) : M unit :=
  update r (fun c => {| state := state c; handle := h; credentials := credentials c |}).

Definition set_state (r : ref) (st : ConnectionState) : M unit :=
  update r (fun c => {| state := st; handle := handle c; credentials := credentials c |}).

(* ------------------------------------------------------------------ *)
(** * The adapter *)
(* ------------------------------------------------------------------ *)

(** The engine library ([duckdb]) is outside the repository: it is an oracle
    that, from the calls already made and the call being made, says what the
    call returns or raises. *)
Definition Engine := list call -> call -> outcome value.

Section Adapter.

(** Python's [str(e)] of an exception object; it is fixed by the exception's
    class, so it is a parameter here. *)
Variable py_str : exn -> string.

Variable engine : Engine.

(** One call on the engine: it is recorded whether it returns or raises. *)
Definition record_call (c : call) (w : World) : World :=
  {| calls := calls w ++ [c]; debug_log := debug_log w; heap := heap w |}.

Definition engine_call (c : call) : M value :=
  fun w => (engine (calls w) c, record_call c w).

(** [duckdb.connect(path, read_only=...)]: the connection object is known by
    the position of the call that made it.  This names the object; whether
    the engine hands out the same object twice is not modelled. *)
Definition duckdb_connect (db_path : string) (read_only : bool) : M obj :=
  fun w => (_ <- engine_call (Connect db_path read_only) ;; ret (length (calls w))) w.

(** [conn.cursor()]; the cursor, too, is known by the position of the call
    that made it. *)
Definition conn_cursor (conn : obj) : M obj :=
  fun w => (_ <- engine_call (Cursor conn) ;; ret (length (calls w))) w.

(** ** class DuckDBCursorWrapper *)

Definition DuckDBCursorWrapper__init__ (cursor : obj) : DuckDBCursorWrapper.t :=
  {| DuckDBCursorWrapper._cursor := cursor |}.

Definition DuckDBCursorWrapper_execute
    (self : DuckDBCursorWrapper.t) (sql : string) (bindings : option (list string))
    : M value :=
  try_except
    (match bindings with
     | None => engine_call (Execute (DuckDBCursorWrapper._cursor self) sql)
     | Some b => engine_call (ExecuteBind (DuckDBCursorWrapper._cursor self) sql b)
     end)
    [(RuntimeError, fun e => raise (MkExn RuntimeException (py_str e) None))].

(** ** class DuckDBConnectionWrapper *)

Definition DuckDBConnectionWrapper__init__ (conn : obj) : M DuckDBConnectionWrapper.t :=
  c <- conn_cursor conn ;;
  ret {| DuckDBConnectionWrapper._conn := conn;
         DuckDBConnectionWrapper._cursor := DuckDBCursorWrapper__init__ c |}.


(** [h.execute(sql)] on the connection wrapper: the wrapper defines no
    [execute], so [__getattr__] forwards the call to the wrapped engine
    connection. *)
Definition DuckDBConnectionWrapper_execute
    (self : DuckDBConnectionWrapper.t) (sql : string) : M value :=
  engine_call (Execute (DuckDBConnectionWrapper._conn self) sql).

(** ** class DuckDBConnectionManager *)

Definition TYPE : string := "duckdb".

Record AdapterRequiredConfig := {
  threads : Z;
  profile_credentials : DuckDBCredentials
}.

Record DuckDBConnectionManager := { profile : AdapterRequiredConfig }.

(** Modelled from the spec: the base class constructor
    ([SQLConnectionManager.__init__]) belongs to the host framework; it stores
    the profile and neither raises nor touches the engine. *)
Definition super__init__ (p : AdapterRequiredConfig) : M DuckDBConnectionManager :=
  ret {| profile := p |}.

Definition __init__ (p : AdapterRequiredConfig) : M DuckDBConnectionManager :=
  self <- super__init__ p ;;
  if (threads p >? 1)%Z then
    raise (MkExn RuntimeException "dbt-duckdb only supports 1 thread at this time" None)
  else ret self.

Definition get_credentials (c : DuckDBCredentials) : DuckDBCredentials := c.

(** The body of the [try] statement of [open]. *)
Definition open_try (connection : ref) (creds : DuckDBCredentials) : M unit :=
  conn <- duckdb_connect (path creds) false ;;
  w <- DuckDBConnectionWrapper__init__ conn ;;
  set_handle connection (Some w) ;;
  set_state connection OPEN ;;
  let h := w in
  match extensions creds with
  | Some exts =>
      for_each exts (fun extension =>
        _ <- DuckDBConnectionWrapper_execute h ("LOAD '" ++ extension ++ "'") ;; ret tt)
  | None => ret tt
  end ;;
  match s3_region creds with
  | Some _ =>
      DuckDBConnectionWrapper_execute h "LOAD 'httpfs'" ;;
      DuckDBConnectionWrapper_execute h
        ("SET s3_region = '" ++ fstr (s3_region creds) ++ "'") ;;
      match s3_session_token creds with
      | Some _ =>
          DuckDBConnectionWrapper_execute h
            ("SET s3_session_token = '" ++ fstr (s3_session_token creds) ++ "'") ;;
          ret tt
      | None =>
          match s3_access_key_id creds with
          | Some _ =>
              DuckDBConnectionWrapper_execute h
                ("SET s3_access_key_id = '" ++ fstr (s3_access_key_id creds) ++ "'") ;;
              DuckDBConnectionWrapper_execute h
                ("SET s3_secret_access_key = '" ++ fstr (s3_secret_access_key creds) ++ "'") ;;
              ret tt
          | None =>
              raise (MkExn RuntimeException
                "You must specify either s3_session_token or s3_access_key_id and s3_secret_access_key"
                None)
          end
      end
  | None => ret tt
  end.

(** The [except RuntimeError as e:] clause of [open]. *)
Definition open_except (connection : ref) (e : exn) : M unit :=
  logger_debug ("Got an error when attempting to open a duckdb database: '"
                ++ py_str e ++ "'") ;;
  set_handle connection None ;;
  set_state connection FAIL ;;
  raise (MkExn FailedToConnectException (py_str e) None).

Definition open (connection : ref) : M ref :=
  c <- read connection ;;
  if ConnectionState_eqb (state c) OPEN then
    logger_debug "Connection is already open, skipping open." ;;
    ret connection
  else
    let creds := get_credentials (credentials c) in
    try_except (open_try connection creds)
               [(RuntimeError, open_except connection)] ;;
    ret connection.

Definition cancel (connection : ref) : M unit := ret tt.

(** The [with self.exception_handler(sql):] statement around [body]: the
    generator yields once, an exception of the body is thrown into it at the
    [yield], where the [except] clauses take it, and the decorator's
    [__exit__] decides what leaves the scope. *)
Definition exception_handler (sql : string) (connection_name : string)
    (body : M unit) : M unit :=
  with_contextmanager
    (dispatch
       [ (RuntimeException, fun dbte => raise dbte);
         (RuntimeError, fun e => logger_debug ("duckdb error: " ++ py_str e));
         (Exception, fun exc =>
            logger_debug ("Error running SQL: " ++ sql) ;;
            logger_debug "Rolling back transaction." ;;
            raise (MkExn RuntimeException (py_str exc) (Some exc))) ])
    body.

Record AdapterResponse := { _message : string }.

Definition get_response (cursor : DuckDBCursorWrapper.t) : AdapterResponse :=
  {| _message := "OK" |}.

(* ------------------------------------------------------------------ *)
(** * What an observer of the engine sees *)
(* ------------------------------------------------------------------ *)

(** The SQL text of a call, when it is a statement. *)
Definition sql_of (c : call) : list string :=
  match c with
  | Execute _ q => [q]
  | ExecuteBind _ q _ => [q]
  | _ => []
  end.

Definition statements (cs : list call) : list string := flat_map sql_of cs.

(** The calls made, and the statements issued, between two worlds. *)
Definition new_calls (w w' : World) : list call :=
  skipn (length (calls w)) (calls w').

Definition issued (w w' : World) : list string := statements (new_calls w w').

(** The statements of the bootstrap, read off [open] as a list: the loads of
    the configured extensions, then the storage configuration. *)
Definition extension_statements (creds : DuckDBCredentials) : list string :=
  match extensions creds with
  | Some exts => map (fun extension => "LOAD '" ++ extension ++ "'") exts
  | None => []
  end.

Definition storage_statements (creds : DuckDBCredentials) : list string :=
  match s3_region creds with
  | None => []
  | Some _ =>
      ["LOAD 'httpfs'"; "SET s3_region = '" ++ fstr (s3_region creds) ++ "'"] ++
      match s3_session_token creds, s3_access_key_id creds with
      | Some _, _ => ["SET s3_session_token = '" ++ fstr (s3_session_token creds) ++ "'"]
      | None, Some _ =>
          ["SET s3_access_key_id = '" ++ fstr (s3_access_key_id creds) ++ "'";
           "SET s3_secret_access_key = '" ++ fstr (s3_secret_access_key creds) ++ "'"]
      | None, None => []
      end
  end.

Definition bootstrap_statements (creds : DuckDBCredentials) : list string :=
  extension_statements creds ++ storage_statements creds.

(** The calls of a whole [open], for the connection object [hid]. *)
Definition planned_calls (hid : obj) (creds : DuckDBCredentials) : list call :=
  Connect (path creds) false :: Cursor hid ::
  map (Execute hid) (bootstrap_statements creds).

(** The descriptors [open] rejects. *)
Definition rejected (creds : DuckDBCredentials) : bool :=
  match s3_region creds, s3_session_token creds, s3_access_key_id creds with
  | Some _, None, None => true
  | _, _, _ => false
  end.

Definition config_error : exn :=
  MkExn RuntimeException
    "You must specify either s3_session_token or s3_access_key_id and s3_secret_access_key"
    None.

(** The wrapper [open] builds in world [w], around the objects of its
    connect call and of its cursor call. *)
Definition fresh_handle (w : World) : DuckDBConnectionWrapper.t :=
  {| DuckDBConnectionWrapper._conn := length (calls w);
     DuckDBConnectionWrapper._cursor :=
       {| DuckDBCursorWrapper._cursor := S (length (calls w)) |} |}.

(** Issuing a list of statements on a connection wrapper, one after the
    other. *)
Definition exec_all (h : DuckDBConnectionWrapper.t) (qs : list string) : M unit :=
  for_each qs (fun q => _ <- DuckDBConnectionWrapper_execute h q ;; ret tt).

(** [open]'s [try] body as one run of the planned statements. *)
Definition open_plan (connection : ref) (creds : DuckDBCredentials) : M unit :=
  conn <- duckdb_connect (path creds) false ;;
  w <- DuckDBConnectionWrapper__init__ conn ;;
  set_handle connection (Some w) ;;
  set_state connection OPEN ;;
  exec_all w (bootstrap_statements creds) ;;
  if rejected creds then raise config_error else ret tt.

(** The engine raises on no call. *)
Definition never_raises : Prop :=
  forall hist c, exists v, engine hist c = Normal v.

(** Statements that set the access key or the secret. *)
Definition sets_key_or_secret (q : string) : bool :=
  String.prefix "SET s3_access_key_id" q || String.prefix "SET s3_secret_access_key" q.

Definition sets_s3 (q : string) : bool := String.prefix "SET s3_" q.

(** The world in which the bootstrap statements run: both engine objects
    exist, the handle is set and the state is open. *)
Definition connected (connection : ref) (creds : DuckDBCredentials) (w : World) : World :=
  let w1 := record_call (Connect (path creds) false) w in
  let w2 := record_call (Cursor (length (calls w))) w1 in
  let h := {| DuckDBConnectionWrapper._conn := length (calls w);
              DuckDBConnectionWrapper._cursor :=
                {| DuckDBCursorWrapper._cursor := length (calls w1) |} |} in
  snd (set_state connection OPEN (snd (set_handle connection (Some h) w2))).

(** ** Two sentences of the specification, as they are worded *)


(** Opening without a storage region as worded: no [SET s3_*] statement, no
    [LOAD 'httpfs'], and the loads of the configured extensions only. *)
Definition open_without_region_never_loads_httpfs : Prop :=
  forall (connection : ref) (w : World),
    state (heap w connection) <> OPEN ->
    s3_region (credentials (heap w connection)) = None ->
    (forall q, In q (issued w (snd (open connection w))) -> sets_s3 q = false) /\
    ~ In "LOAD 'httpfs'" (issued w (snd (open connection w))) /\
    (fst (open connection w) = Normal connection ->
     issued w (snd (open connection w)) =
       extension_statements (credentials (heap w connection))).

(** ** Sample engines, descriptors and worlds *)

(** An engine that accepts every call. *)
Definition engine_ok : Engine := fun _ _ => Normal 0.

(** An engine that refuses one statement with a low-level runtime failure. *)
Definition engine_refusing (q : string) : Engine :=
  fun _ c =>
    match c with
    | Execute _ q' =>
        if String.eqb q q' then Raised (MkExn RuntimeError "Catalog Error" None)
        else Normal 0
    | _ => Normal 0
    end.

(** A world with no call made yet, whose connections are in state [st]. *)
Definition world_of (creds : DuckDBCredentials) (st : ConnectionState) : World :=
  {| calls := [];
     debug_log := [];
     heap := fun _ => {| state := st; handle := None; credentials := creds |} |}.

Definition creds_json : DuckDBCredentials :=
  {| database := "main"; schema := "main"; path := ":memory:";
     extensions := Some ["json"];
     s3_region := None; s3_access_key_id := None;
     s3_secret_access_key := None; s3_session_token := None |}.

Definition creds_httpfs : DuckDBCredentials :=
  {| database := "main"; schema := "main"; path := ":memory:";
     extensions := Some ["httpfs"];
     s3_region := None; s3_access_key_id := None;
     s3_secret_access_key := None; s3_session_token := None |}.

Definition creds_token : DuckDBCredentials :=
  {| database := "main"; schema := "main"; path := ":memory:";
     extensions := Some ["json"];
     s3_region := Some "us-east-1"; s3_access_key_id := Some "AKIA";
     s3_secret_access_key := Some "hunter2"; s3_session_token := Some "tok" |}.

Definition creds_key_without_secret : DuckDBCredentials :=
  {| database := "main"; schema := "main"; path := ":memory:";
     extensions := None;
     s3_region := Some "us-east-1"; s3_access_key_id := Some "AKIA";
     s3_secret_access_key := None; s3_session_token := None |}.

Definition creds_region_only : DuckDBCredentials :=
  {| database := "main"; schema := "main"; path := ":memory:";
     extensions := None;
     s3_region := Some "us-east-1"; s3_access_key_id := None;
     s3_secret_access_key := None; s3_session_token := None |}.


Definition stop_iteration : exn := MkExn StopIteration "exhausted" None.

(** ** More observations and samples *)

Definition is_connect (c : call) : bool :=
  match c with Connect _ _ => true | _ => false end.

Definition is_cursor (c : call) : bool :=
  match c with Cursor _ => true | _ => false end.

Definition sets_session_token (q : string) : bool :=
  String.prefix "SET s3_session_token" q.

(** Of the calls [l] made after the history [hist], the engine accepted every
    one but possibly the last. *)
Definition accepted_but_last (hist l : list call) : Prop :=
  forall l1 c l2,
    l = (l1 ++ c :: l2)%list -> l2 <> [] ->
    exists v, engine (hist ++ l1)%list c = Normal v.

(** An engine whose [connect] raises [e]. *)
Definition engine_connect_raising (e : exn) : Engine :=
  fun _ c => match c with Connect _ _ => Raised e | _ => Normal 0 end.

(** An engine that raises [e] on one statement. *)
Definition engine_raising (q : string) (e : exn) : Engine :=
  fun _ c =>
    match c with
    | Execute _ q' => if String.eqb q q' then Raised e else Normal 0
    | ExecuteBind _ q' _ => if String.eqb q q' then Raised e else Normal 0
    | _ => Normal 0
    end.

(** An engine whose very first call fails with a low-level runtime failure
    and that accepts every call after it. *)
Definition engine_flaky : Engine :=
  fun hist _ =>
    match hist with
    | [] => Raised (MkExn RuntimeError "IO Error" None)
    | _ :: _ => Normal 0
    end.

Definition creds_key_secret : DuckDBCredentials :=
  {| database := "main"; schema := "main"; path := ":memory:";
     extensions := Some ["json"];
     s3_region := Some "us-east-1"; s3_access_key_id := Some "AKIA";
     s3_secret_access_key := Some "hunter2"; s3_session_token := None |}.

Definition value_error : exn := MkExn ValueError "bad value" None.

(* ------------------------------------------------------------------ *)
(** * Running a list of statements *)
(* ------------------------------------------------------------------ *)

Lemma exec_all_cons (h : DuckDBConnectionWrapper.t) q qs w :
  exec_all h (q :: qs) w =
    match engine (calls w) (Execute (DuckDBConnectionWrapper._conn h) q) with
    | Normal _ => exec_all h qs (record_call (Execute (DuckDBConnectionWrapper._conn h) q) w)
    | Raised e => (Raised e, record_call (Execute (DuckDBConnectionWrapper._conn h) q) w)
    end.
Proof.
  unfold exec_all, DuckDBConnectionWrapper_execute, engine_call. cbn [for_each].
  unfold bind, ret.
  destruct (engine (calls w) (Execute (DuckDBConnectionWrapper._conn h) q)); reflexivity.
Qed.

Lemma exec_all_spec (h : DuckDBConnectionWrapper.t) (qs : list string) :
  forall w,
    debug_log (snd (exec_all h qs w)) = debug_log w /\
    heap (snd (exec_all h qs w)) = heap w /\
    exists k,
      calls (snd (exec_all h qs w)) =
        (calls w ++ map (Execute (DuckDBConnectionWrapper._conn h)) (firstn k qs))%list /\
      (fst (exec_all h qs w) = Normal tt -> firstn k qs = qs) /\
      (forall e, fst (exec_all h qs w) = Raised e ->
                 exists hist c, engine hist c = Raised e).
Proof.
  induction qs as [| q qs IH]; intros w.
  - cbn. repeat split; trivial. exists 0. cbn. rewrite app_nil_r.
    repeat split; trivial. intros e He. discriminate He.
  - rewrite exec_all_cons.
    destruct (engine (calls w) (Execute (DuckDBConnectionWrapper._conn h) q)) as [v | e] eqn:E.
    + destruct (IH (record_call (Execute (DuckDBConnectionWrapper._conn h) q) w))
        as (Hlog & Hheap & k & Hcalls & Hok & Hraise).
      cbn [record_call calls debug_log heap] in *.
      repeat split; trivial.
      exists (S k). cbn [firstn map]. rewrite Hcalls, <- app_assoc. cbn [app].
      repeat split; trivial.
      intros Hn. rewrite (Hok Hn). reflexivity.
    + cbn [fst snd record_call calls debug_log heap].
      repeat split; trivial.
      exists 1. cbn [firstn map]. destruct qs; cbn [firstn map]; repeat split; trivial;
        try discriminate; intros e' He'; inversion He'; subst; eauto.
Qed.

Lemma bind_eq {A B} (m : M A) (k : A -> M B) w :
  bind m k w =
    match m w with
    | (Normal a, w') => k a w'
    | (Raised e, w') => (Raised e, w')
    end.
Proof. reflexivity. Qed.

Lemma bind_ext {A B} (m : M A) (k1 k2 : A -> M B) w :
  (forall a w', k1 a w' = k2 a w') -> bind m k1 w = bind m k2 w.
Proof.
  intros H. unfold bind. destruct (m w) as [[a | e] w']; auto.
Qed.

Lemma exec_all_app {B} (h : DuckDBConnectionWrapper.t) l1 l2 (k : M B) :
  forall w,
    (exec_all h (l1 ++ l2) ;; k) w = (exec_all h l1 ;; exec_all h l2 ;; k) w.
Proof.
  induction l1 as [| q l1 IH]; intros w.
  - reflexivity.
  - cbn [app].
    rewrite (bind_eq (exec_all h (q :: l1 ++ l2))), (bind_eq (exec_all h (q :: l1))).
    rewrite !exec_all_cons.
    destruct (engine (calls w) (Execute (DuckDBConnectionWrapper._conn h) q)).
    + exact (IH _).
    + reflexivity.
Qed.

Lemma for_each_map {A} (f : A -> string) (h : DuckDBConnectionWrapper.t) l :
  forall w,
    for_each l (fun x => _ <- DuckDBConnectionWrapper_execute h (f x) ;; ret tt) w =
    exec_all h (map f l) w.
Proof.
  induction l as [| x l IH]; intros w.
  - reflexivity.
  - cbn [map]. rewrite exec_all_cons. cbn [for_each].
    rewrite bind_eq, bind_eq.
    unfold DuckDBConnectionWrapper_execute at 1. unfold engine_call at 1.
    destruct (engine (calls w) (Execute (DuckDBConnectionWrapper._conn h) (f x)));
      cbn [ret]; [apply IH | reflexivity].
Qed.

Ltac case_engine :=
  repeat match goal with
         | |- context [match engine ?a ?b with _ => _ end] => destruct (engine a b)
         end.

(** The [try] body of [open] issues the planned statements in order and
    stops at the first that raises. *)
Lemma open_try_plan (connection : ref) (creds : DuckDBCredentials) :
  forall w, open_try connection creds w = open_plan connection creds w.
Proof.
  intros w. unfold open_try, open_plan.
  apply bind_ext; intros conn w1.
  apply bind_ext; intros h w2.
  apply bind_ext; intros _ w3.
  apply bind_ext; intros _ w4.
  unfold bootstrap_statements. rewrite exec_all_app.
  unfold extension_statements, storage_statements, rejected.
  destruct (extensions creds) as [exts |].
  - rewrite (bind_eq (for_each exts _)), (bind_eq (exec_all h (map _ exts))).
    rewrite for_each_map.
    destruct (exec_all h _ w4) as [[[] | e] w5]; [| reflexivity].
    destruct (s3_region creds), (s3_session_token creds), (s3_access_key_id creds);
      cbn [app]; unfold exec_all, for_each, bind, ret,
        DuckDBConnectionWrapper_execute, engine_call, raise;
      case_engine; reflexivity.
  - destruct (s3_region creds), (s3_session_token creds), (s3_access_key_id creds);
      cbn [app]; unfold exec_all, for_each, bind, ret,
        DuckDBConnectionWrapper_execute, engine_call, raise;
      case_engine; reflexivity.
Qed.

Lemma open_plan_eq (connection : ref) (creds : DuckDBCredentials) (w : World) :
  open_plan connection creds w =
    let w1 := record_call (Connect (path creds) false) w in
    match engine (calls w) (Connect (path creds) false) with
    | Raised e => (Raised e, w1)
    | Normal _ =>
        match engine (calls w1) (Cursor (length (calls w))) with
        | Raised e => (Raised e, record_call (Cursor (length (calls w))) w1)
        | Normal _ =>
            match exec_all {| DuckDBConnectionWrapper._conn := length (calls w);
                              DuckDBConnectionWrapper._cursor :=
                                {| DuckDBCursorWrapper._cursor := length (calls w1) |} |}
                           (bootstrap_statements creds) (connected connection creds w) with
            | (Normal _, w5) =>
                if rejected creds then (Raised config_error, w5) else (Normal tt, w5)
            | (Raised e, w5) => (Raised e, w5)
            end
        end
    end.
Proof.
  unfold open_plan, connected, duckdb_connect, DuckDBConnectionWrapper__init__,
    conn_cursor, engine_call, DuckDBCursorWrapper__init__, set_handle, set_state,
    update, bind, ret.
  cbn [fst snd record_call calls debug_log heap].
  destruct (engine (calls w) (Connect (path creds) false)); [| reflexivity].
  destruct (engine _ (Cursor (length (calls w)))); [| reflexivity].
  match goal with
  | |- ?L = ?R =>
      match L with
      | context [exec_all ?h ?qs ?w4] =>
          match R with
          | context [exec_all ?h' ?qs' ?w4'] =>
              change (exec_all h' qs' w4') with (exec_all h qs w4);
              destruct (exec_all h qs w4) as [[[] | e] w5]
          end
      end
  end; [| reflexivity].
  destruct (rejected creds); reflexivity.
Qed.

(** The run of the plan: the calls made are an initial segment of the planned
    calls, at least the connect; all of them when it ends normally; an
    exception is the engine's or, with every statement issued, the
    configuration error. *)
Lemma open_plan_spec (connection : ref) (creds : DuckDBCredentials) (w : World) :
  let r := open_plan connection creds w in
  let plan := planned_calls (length (calls w)) creds in
  debug_log (snd r) = debug_log w /\
  (forall r', r' <> connection -> heap (snd r) r' = heap w r') /\
  credentials (heap (snd r) connection) = credentials (heap w connection) /\
  exists k,
    1 <= k /\
    calls (snd r) = (calls w ++ firstn k plan)%list /\
    (fst r = Normal tt ->
       firstn k plan = plan /\ rejected creds = false /\
       state (heap (snd r) connection) = OPEN /\
       handle (heap (snd r) connection) = Some (fresh_handle w)) /\
    (forall e, fst r = Raised e ->
       (exists hist c, engine hist c = Raised e) \/
       (e = config_error /\ rejected creds = true /\ firstn k plan = plan)).
Proof.
  cbv zeta. rewrite open_plan_eq. unfold planned_calls. cbv zeta.
  destruct (engine (calls w) (Connect (path creds) false)) as [v1 | e1] eqn:E1.
  2:{ cbn [fst snd record_call calls debug_log heap].
      repeat split; trivial. exists 1. cbn [firstn].
      repeat split; trivial; try discriminate.
      intros e He. inversion He; subst. left; eauto. }
  destruct (engine _ (Cursor (length (calls w)))) as [v2 | e2] eqn:E2.
  2:{ cbn [fst snd record_call calls debug_log heap].
      repeat split; trivial. exists 2. cbn [firstn]. rewrite <- app_assoc.
      repeat split; trivial; try discriminate; try lia.
      intros e He. inversion He; subst. left; eauto. }
  match goal with |- context [exec_all ?h ?qs ?w4] =>
    destruct (exec_all_spec h qs w4) as (Hlog & Hheap & k & Hcalls & Hok & Hraise);
    destruct (exec_all h qs w4) as [[[] | e] w5] eqn:Erun
  end;
  cbn [fst snd record_call calls debug_log heap connected set_handle set_state update
       DuckDBConnectionWrapper._conn DuckDBCursorWrapper__init__] in *.
  - destruct (rejected creds) eqn:Erej; cbn [fst snd raise ret].
    + rewrite Hlog, Hheap. cbn [heap]. rewrite Nat.eqb_refl. cbn [credentials].
      repeat split; trivial.
      { intros r' Hr'. apply Nat.eqb_neq in Hr'. rewrite Hr'. reflexivity. }
      exists (S (S k)). cbn [firstn]. rewrite Hcalls, <- !app_assoc. cbn [app].
      rewrite <- firstn_map. repeat split; trivial; try discriminate; try lia.
      intros e He. inversion He; subst. right. repeat split; trivial.
      rewrite firstn_map, (Hok eq_refl). reflexivity.
    + rewrite Hlog, Hheap. cbn [heap]. rewrite Nat.eqb_refl. cbn [credentials state handle].
      repeat split; trivial.
      { intros r' Hr'. apply Nat.eqb_neq in Hr'. rewrite Hr'. reflexivity. }
      exists (S (S k)). cbn [firstn]. rewrite Hcalls, <- !app_assoc. cbn [app].
      rewrite <- firstn_map. repeat split; trivial; try discriminate; try lia.
      * rewrite firstn_map, (Hok eq_refl). reflexivity.
      * unfold fresh_handle. rewrite length_app, Nat.add_1_r. reflexivity.
  - rewrite Hlog, Hheap. cbn [heap]. rewrite Nat.eqb_refl. cbn [credentials].
    repeat split; trivial.
    { intros r' Hr'. apply Nat.eqb_neq in Hr'. rewrite Hr'. reflexivity. }
    exists (S (S k)). cbn [firstn]. rewrite Hcalls, <- !app_assoc. cbn [app].
    rewrite <- firstn_map. repeat split; trivial; try discriminate; try lia.
    intros e' He. inversion He; subst. left. apply Hraise. reflexivity.
Qed.

(* ------------------------------------------------------------------ *)
(** * [open], case by case *)
(* ------------------------------------------------------------------ *)

Lemma open_already_open (connection : ref) (w : World) :
  state (heap w connection) = OPEN ->
  open connection w =
    (Normal connection,
     {| calls := calls w;
        debug_log := debug_log w ++ ["Connection is already open, skipping open."];
        heap := heap w |}).
Proof.
  intros H. unfold open, read. rewrite bind_eq, H. reflexivity.
Qed.

Lemma open_except_spec (connection : ref) (e : exn) (w : World) :
  fst (open_except connection e w) = Raised (MkExn FailedToConnectException (py_str e) None) /\
  calls (snd (open_except connection e w)) = calls w /\
  state (heap (snd (open_except connection e w)) connection) = FAIL /\
  handle (heap (snd (open_except connection e w)) connection) = None /\
  credentials (heap (snd (open_except connection e w)) connection) =
    credentials (heap w connection) /\
  (forall r', r' <> connection ->
     heap (snd (open_except connection e w)) r' = heap w r') /\
  debug_log (snd (open_except connection e w)) =
    (debug_log w ++
     [("Got an error when attempting to open a duckdb database: '" ++ py_str e ++ "'")%string])%list.
Proof.
  unfold open_except, logger_debug, set_handle, set_state, update, raise, bind.
  cbn [fst snd calls debug_log heap]. rewrite !Nat.eqb_refl. cbn [state handle credentials].
  repeat split; trivial.
  intros r' Hr'. apply Nat.eqb_neq in Hr'. rewrite Hr'. reflexivity.
Qed.

(** A connection that is not open goes through the [try] statement. *)
Lemma open_cases (connection : ref) (w : World) :
  state (heap w connection) <> OPEN ->
  open connection w =
    match open_try connection (credentials (heap w connection)) w with
    | (Normal _, w1) => (Normal connection, w1)
    | (Raised e, w1) =>
        if isinstance e RuntimeError
        then (Raised (MkExn FailedToConnectException (py_str e) None),
              snd (open_except connection e w1))
        else (Raised e, w1)
    end.
Proof.
  intros H. unfold open, read. rewrite bind_eq.
  destruct (state (heap w connection)) eqn:E; try congruence;
    cbn [ConnectionState_eqb]; unfold get_credentials; rewrite bind_eq;
    unfold try_except;
    (destruct (open_try connection (credentials (heap w connection)) w) as [[[] | e] w1];
     [reflexivity |]);
    cbn [dispatch]; (destruct (isinstance e RuntimeError); [| reflexivity]);
    pose proof (open_except_spec connection e w1) as (Hf & _);
    destruct (open_except connection e w1) as [o w2]; cbn [fst snd] in *;
    rewrite Hf; reflexivity.
Qed.

Lemma config_error_is_runtime_error : isinstance config_error RuntimeError = true.
Proof. reflexivity. Qed.

(** Everything [open] does to a connection that is not open. *)
Lemma open_spec (connection : ref) (w : World) :
  state (heap w connection) <> OPEN ->
  let creds := credentials (heap w connection) in
  let r := open connection w in
  let plan := planned_calls (length (calls w)) creds in
  (forall r', r' <> connection -> heap (snd r) r' = heap w r') /\
  credentials (heap (snd r) connection) = creds /\
  exists k,
    1 <= k /\
    calls (snd r) = (calls w ++ firstn k plan)%list /\
    (forall c', fst r = Normal c' ->
       c' = connection /\ firstn k plan = plan /\ rejected creds = false /\
       state (heap (snd r) connection) = OPEN /\
       handle (heap (snd r) connection) = Some (fresh_handle w) /\
       debug_log (snd r) = debug_log w) /\
    (forall e, fst r = Raised e ->
       (isinstance e RuntimeError = false /\ exists hist c, engine hist c = Raised e) \/
       (exists e0,
          e = MkExn FailedToConnectException (py_str e0) None /\
          isinstance e0 RuntimeError = true /\
          state (heap (snd r) connection) = FAIL /\
          handle (heap (snd r) connection) = None /\
          ((exists hist c, engine hist c = Raised e0) \/
           (e0 = config_error /\ rejected creds = true /\ firstn k plan = plan)))).
Proof.
  intros Hst. cbv zeta. rewrite (open_cases _ _ Hst), open_try_plan.
  pose proof (open_plan_spec connection (credentials (heap w connection)) w) as HP.
  cbv zeta in HP.
  destruct (open_plan connection (credentials (heap w connection)) w) as [[[] | e] w1].
  - cbn [fst snd] in *. destruct HP as (Hlog & Hheap & Hcred & k & Hk & Hcalls & Hok & _).
    destruct (Hok eq_refl) as (Hall & Hrej & Hopen & Hhandle).
    repeat split; trivial. exists k. repeat split; trivial;
      try (inversion H; reflexivity).
    intros e He. discriminate He.
  - cbn [fst snd] in *. destruct HP as (Hlog & Hheap & Hcred & k & Hk & Hcalls & _ & Hraise).
    pose proof (open_except_spec connection e w1) as (_ & Xcalls & Xst & Xh & Xcred & Xheap & _).
    destruct (isinstance e RuntimeError) eqn:Ecls; cbn [fst snd].
    + split. { intros r' Hr'. rewrite (Xheap r' Hr'). auto. }
      split. { rewrite Xcred. exact Hcred. }
      exists k. rewrite Xcalls. repeat split; trivial; try discriminate.
      intros e' He'. inversion He'; subst e'. right. exists e.
      repeat split; trivial. apply Hraise. reflexivity.
    + repeat split; trivial. exists k. repeat split; trivial; try discriminate.
      intros e' He'. inversion He'; subst e'. left. split; trivial.
      destruct (Hraise e eq_refl) as [Heng | (Hcfg & _)]; trivial.
      subst e. discriminate Ecls.
Qed.

(* ------------------------------------------------------------------ *)
(** * The statements an observer sees *)
(* ------------------------------------------------------------------ *)

Lemma new_calls_app (w w' : World) (l : list call) :
  calls w' = (calls w ++ l)%list -> new_calls w w' = l.
Proof.
  intros H. unfold new_calls. rewrite H, skipn_app, skipn_all, Nat.sub_diag.
  reflexivity.
Qed.

Lemma statements_map_execute (hid : obj) (qs : list string) :
  statements (map (Execute hid) qs) = qs.
Proof.
  induction qs as [| q qs IH]; cbn; [reflexivity | f_equal; exact IH].
Qed.

Lemma statements_plan (hid : obj) (creds : DuckDBCredentials) :
  statements (planned_calls hid creds) = bootstrap_statements creds.
Proof.
  unfold planned_calls. cbn. apply statements_map_execute.
Qed.

Lemma statements_plan_firstn (hid : obj) (creds : DuckDBCredentials) (k : nat) :
  statements (firstn k (planned_calls hid creds)) =
  firstn (k - 2) (bootstrap_statements creds).
Proof.
  unfold planned_calls. destruct k as [| [| k]]; try reflexivity.
  cbn [firstn Nat.sub]. rewrite Nat.sub_0_r. cbn.
  rewrite firstn_map. apply statements_map_execute.
Qed.

Lemma In_firstn_In {A} (x : A) n (l : list A) : In x (firstn n l) -> In x l.
Proof.
  intros H. rewrite <- (firstn_skipn n l). apply in_or_app. left. exact H.
Qed.

Lemma in_extension_statements (q : string) (creds : DuckDBCredentials) :
  In q (extension_statements creds) ->
  exists exts x,
    extensions creds = Some exts /\ In x exts /\ q = "LOAD '" ++ x ++ "'".
Proof.
  unfold extension_statements. destruct (extensions creds) as [exts |]; [| intros []].
  intros H. apply in_map_iff in H. destruct H as (x & Hq & Hx).
  exists exts, x. auto.
Qed.

Lemma append_inv_tail (s1 s2 t : string) : s1 ++ t = s2 ++ t -> s1 = s2.
Proof.
  intros H.
  assert (Hl : forall a b, list_ascii_of_string (a ++ b) =
                           (list_ascii_of_string a ++ list_ascii_of_string b)%list).
  { induction a as [| c a IH]; intros b; cbn; [reflexivity | f_equal; apply IH]. }
  apply (f_equal list_ascii_of_string) in H. rewrite !Hl in H.
  apply app_inv_tail in H.
  rewrite <- (string_of_list_ascii_of_string s1), <- (string_of_list_ascii_of_string s2).
  f_equal. exact H.
Qed.

(** The statements of an [open] on a connection that is not open are an
    initial segment of the bootstrap statements, and all of them when [open]
    returns. *)
Lemma open_issued (connection : ref) (w : World) :
  state (heap w connection) <> OPEN ->
  (exists n, issued w (snd (open connection w)) =
             firstn n (bootstrap_statements (credentials (heap w connection)))) /\
  (fst (open connection w) = Normal connection ->
   issued w (snd (open connection w)) =
     bootstrap_statements (credentials (heap w connection))).
Proof.
  intros Hst. destruct (open_spec connection w Hst) as (_ & _ & k & _ & Hcalls & Hok & _).
  unfold issued. rewrite (new_calls_app _ _ _ Hcalls). split.
  - exists (k - 2). apply statements_plan_firstn.
  - intros Hn. destruct (Hok _ Hn) as (_ & Hall & _). rewrite Hall. apply statements_plan.
Qed.

Lemma open_never_raises (connection : ref) (w : World) :
  never_raises ->
  state (heap w connection) <> OPEN ->
  rejected (credentials (heap w connection)) = false ->
  fst (open connection w) = Normal connection.
Proof.
  intros Hnr Hst Hrej.
  destruct (open_spec connection w Hst) as (_ & _ & k & _ & _ & Hok & Hraise).
  assert (Hno : forall e hist c, engine hist c <> Raised e).
  { intros e hist c He. destruct (Hnr hist c) as [v Hv]. congruence. }
  destruct (fst (open connection w)) as [c' | e] eqn:E.
  - destruct (Hok c' eq_refl) as (-> & _). reflexivity.
  - exfalso. destruct (Hraise e eq_refl)
      as [(_ & hist & c & He) | (e0 & _ & _ & _ & _ & [(hist & c & He) | (_ & Hr & _)])].
    + exact (Hno _ _ _ He).
    + exact (Hno _ _ _ He).
    + congruence.
Qed.

(* ------------------------------------------------------------------ *)
(** * The properties of the specification *)
(* ------------------------------------------------------------------ *)

Lemma not_runtime_error_not_dbt (e : exn) :
  isinstance e RuntimeError = false -> isinstance e RuntimeException = false.
Proof.
  destruct e as [cls msg cause]. destruct cls; cbn; intros H;
    first [reflexivity | discriminate H].
Qed.

Lemma pyclass_eqb_refl (c : pyclass) : pyclass_eqb c c = true.
Proof. destruct c; reflexivity. Qed.

Lemma exn_eqb_unfold c1 m1 k1 c2 m2 k2 :
  exn_eqb (MkExn c1 m1 k1) (MkExn c2 m2 k2) =
    pyclass_eqb c1 c2 && String.eqb m1 m2 &&
    match k1, k2 with
    | None, None => true
    | Some x, Some y => exn_eqb x y
    | _, _ => false
    end.
Proof. reflexivity. Qed.

Lemma exn_eqb_refl : forall e, exn_eqb e e = true.
Proof.
  fix IH 1. intros [c m [k |]]; rewrite exn_eqb_unfold;
    rewrite pyclass_eqb_refl, String.eqb_refl; cbn [andb]; [apply IH | reflexivity].
Qed.

(** The exception built with [raise ... from value] is not [value]. *)
Lemma exn_eqb_wrapper : forall e c m, exn_eqb (MkExn c m (Some e)) e = false.
Proof.
  fix IH 1. intros [c' m' [k |]] c m; rewrite exn_eqb_unfold.
  - rewrite (IH k c' m'). apply andb_false_r.
  - apply andb_false_r.
Qed.

Lemma dbt_is_runtime_error (e : exn) :
  isinstance e RuntimeException = true ->
  isinstance e RuntimeError = true /\ isinstance e StopIteration = false.
Proof.
  destruct e as [cls msg cause]. destruct cls; cbn; intros H;
    first [split; reflexivity | discriminate H].
Qed.

Lemma not_exception_not_runtime_error (e : exn) :
  isinstance e Exception = false ->
  isinstance e RuntimeError = false /\ isinstance e StopIteration = false.
Proof.
  destruct e as [cls msg cause]. destruct cls; cbn; intros H;
    first [split; reflexivity | discriminate H].
Qed.

Lemma stop_iteration_is_exception (e : exn) :
  isinstance e StopIteration = true ->
  isinstance e Exception = true /\ isinstance e RuntimeError = false.
Proof.
  destruct e as [cls msg cause]. destruct cls; cbn; intros H;
    first [split; reflexivity | discriminate H].
Qed.

(** What leaves the scope, by the class of what the body raised. *)
Lemma exception_handler_run (sql connection_name : string) (body : M unit) (w : World) :
  exception_handler sql connection_name body w =
    match body w with
    | (Normal a, w1) => (Normal a, w1)
    | (Raised e, w1) =>
        if isinstance e RuntimeException then (Raised e, w1)
        else if isinstance e RuntimeError then
          (Normal tt,
           {| calls := calls w1;
              debug_log := debug_log w1 ++ ["duckdb error: " ++ py_str e];
              heap := heap w1 |})
        else if isinstance e Exception then
          (if isinstance e StopIteration then Raised e
           else Raised (MkExn RuntimeException (py_str e) (Some e)),
           {| calls := calls w1;
              debug_log := (debug_log w1 ++ ["Error running SQL: " ++ sql])
                           ++ ["Rolling back transaction."];
              heap := heap w1 |})
        else (Raised e, w1)
    end.
Proof.
  unfold exception_handler, with_contextmanager, contextmanager_exit, generator_throw.
  destruct (body w) as [[[] | e] w1]; [reflexivity |].
  cbn [dispatch].
  destruct (isinstance e RuntimeException) eqn:E1.
  { destruct (dbt_is_runtime_error e E1) as (H1 & H2).
    unfold raise. rewrite H2, H1, exn_eqb_refl. reflexivity. }
  destruct (isinstance e RuntimeError) eqn:E2; [reflexivity |].
  destruct (isinstance e Exception) eqn:E3.
  2:{ destruct (not_exception_not_runtime_error e E3) as (_ & H2).
      unfold raise. rewrite H2, E2, exn_eqb_refl. reflexivity. }
  unfold bind, logger_debug, raise. cbv beta iota.
  change (isinstance (MkExn RuntimeException (py_str e) (Some e)) StopIteration) with false.
  change (isinstance (MkExn RuntimeException (py_str e) (Some e)) RuntimeError) with true.
  cbv iota. rewrite exn_eqb_wrapper. unfold cause_is. cbn [exn_cause].
  rewrite exn_eqb_refl, andb_true_r.
  destruct (isinstance e StopIteration); reflexivity.
Qed.

(** C6. [open] on a connection whose state is already open returns that same
    connection at once: the state is still open, the connection objects are
    untouched, and no engine call is made, so no handle is built and no
    bootstrap statement is issued again. *)
Theorem C6_open_is_idempotent (connection : ref) (w : World) :
  state (heap w connection) = OPEN ->
  fst (open connection w) = Normal connection /\
  heap (snd (open connection w)) = heap w /\
  state (heap (snd (open connection w)) connection) = OPEN /\
  new_calls w (snd (open connection w)) = [] /\
  issued w (snd (open connection w)) = [].
Proof.
  intros H. rewrite (open_already_open _ _ H). cbn [fst snd heap].
  assert (Hn : new_calls w
                 {| calls := calls w;
                    debug_log := debug_log w ++ ["Connection is already open, skipping open."];
                    heap := heap w |} = []).
  { apply new_calls_app. cbn [calls]. rewrite app_nil_r. reflexivity. }
  unfold issued. rewrite Hn. repeat split; trivial.
Qed.

(** C7. Building the manager for a profile with more than one worker thread
    raises the host's runtime error and leaves the world as it was (no engine
    call, so no connection attempt); with one thread or fewer it returns the
    manager, also without touching the world. *)
Theorem C7_manager_is_single_threaded (p : AdapterRequiredConfig) (w : World) :
  ((1 < threads p)%Z ->
     __init__ p w =
       (Raised (MkExn RuntimeException "dbt-duckdb only supports 1 thread at this time" None),
        w)) /\
  ((threads p <= 1)%Z -> __init__ p w = (Normal {| profile := p |}, w)).
Proof.
  unfold __init__, super__init__. rewrite bind_eq. cbn [ret].
  destruct (Z.gtb_spec (threads p) 1) as [Hgt | Hle]; split; intros H;
    try reflexivity; lia.
Qed.

(** C8. The cursor wrapper's [execute] makes exactly one call on the wrapped
    cursor: [execute(sql)] when [bindings] is [None] and
    [execute(sql, bindings)] otherwise.  What the cursor returns is returned
    unchanged, and a [RuntimeError] of the cursor is raised again as the host's
    [RuntimeException] whose message is [str] of the original error. *)
Theorem C8_cursor_execute (self : DuckDBCursorWrapper.t) (sql : string)
    (bindings : option (list string)) (w : World) :
  let c := match bindings with
           | None => Execute (DuckDBCursorWrapper._cursor self) sql
           | Some b => ExecuteBind (DuckDBCursorWrapper._cursor self) sql b
           end in
  new_calls w (snd (DuckDBCursorWrapper_execute self sql bindings w)) = [c] /\
  (forall v, engine (calls w) c = Normal v ->
     fst (DuckDBCursorWrapper_execute self sql bindings w) = Normal v) /\
  (forall e, engine (calls w) c = Raised e ->
     isinstance e RuntimeError = true ->
     fst (DuckDBCursorWrapper_execute self sql bindings w) =
       Raised (MkExn RuntimeException (py_str e) None)) /\
  (forall e, engine (calls w) c = Raised e ->
     isinstance e RuntimeError = false ->
     fst (DuckDBCursorWrapper_execute self sql bindings w) = Raised e).
Proof.
  cbv zeta. unfold DuckDBCursorWrapper_execute, try_except.
  destruct bindings as [b |]; unfold engine_call;
    match goal with |- context [engine (calls w) ?c] =>
      destruct (engine (calls w) c) as [v | e] eqn:E
    end; cbn [dispatch fst snd];
    try (destruct (isinstance e RuntimeError) eqn:Ecls); cbn [raise fst snd];
    (split; [apply new_calls_app; reflexivity |]);
    repeat split; intros; congruence.
Qed.


(** C3. With a storage region and a session token, the statements [open]
    issues are the extension loads followed by [LOAD 'httpfs'],
    [SET s3_region = '<region>'] and [SET s3_session_token = '<token>'], in
    that order: always an initial segment of that sequence (a statement that
    raises ends it), the whole of it when [open] returns, and [open] does
    return when the engine raises nothing.  No statement setting the access
    key or the secret is ever issued, whatever those two fields hold. *)
Theorem C3_session_token_takes_precedence
    (connection : ref) (w : World) (region token : string) :
  state (heap w connection) <> OPEN ->
  s3_region (credentials (heap w connection)) = Some region ->
  s3_session_token (credentials (heap w connection)) = Some token ->
  let storage := ["LOAD 'httpfs'";
                  "SET s3_region = '" ++ region ++ "'";
                  "SET s3_session_token = '" ++ token ++ "'"] in
  let loads := extension_statements (credentials (heap w connection)) in
  (exists n, issued w (snd (open connection w)) = firstn n (loads ++ storage)%list) /\
  (forall q, In q (issued w (snd (open connection w))) -> sets_key_or_secret q = false) /\
  (fst (open connection w) = Normal connection ->
   issued w (snd (open connection w)) = (loads ++ storage)%list) /\
  (never_raises -> fst (open connection w) = Normal connection).
Proof.
  intros Hst Hreg Htok. cbv zeta.
  destruct (open_issued connection w Hst) as ((n & Hn) & Hall).
  assert (Hbs : bootstrap_statements (credentials (heap w connection)) =
                (extension_statements (credentials (heap w connection)) ++
                 ["LOAD 'httpfs'"; ("SET s3_region = '" ++ region ++ "'")%string;
                  ("SET s3_session_token = '" ++ token ++ "'")%string])%list).
  { unfold bootstrap_statements, storage_statements. rewrite Hreg, Htok. reflexivity. }
  rewrite Hbs in *. repeat split.
  - exists n. exact Hn.
  - intros q Hq. rewrite Hn in Hq. apply In_firstn_In, in_app_or in Hq.
    destruct Hq as [Hq | Hq].
    + apply in_extension_statements in Hq. destruct Hq as (exts & x & _ & _ & ->).
      reflexivity.
    + cbn [In] in Hq. destruct Hq as [<- | [<- | [<- | []]]]; reflexivity.
  - exact Hall.
  - intros Hnr. apply (open_never_raises connection w Hnr Hst).
    unfold rejected. rewrite Hreg, Htok. reflexivity.
Qed.

(** C4, as amended. With no storage region, [open] issues no [SET s3_*]
    statement, and issues [LOAD 'httpfs'] only when [httpfs] is itself one of
    the configured extensions.  The statements issued are the loads of the
    configured extensions in list order: an initial segment of them always,
    all of them when [open] returns, and [open] does return when the engine
    raises nothing. *)
Theorem C4_open_without_region (connection : ref) (w : World) :
  state (heap w connection) <> OPEN ->
  s3_region (credentials (heap w connection)) = None ->
  let loads := extension_statements (credentials (heap w connection)) in
  (exists n, issued w (snd (open connection w)) = firstn n loads) /\
  (forall q, In q (issued w (snd (open connection w))) -> sets_s3 q = false) /\
  (In "LOAD 'httpfs'" (issued w (snd (open connection w))) ->
   exists exts, extensions (credentials (heap w connection)) = Some exts /\
                In "httpfs" exts) /\
  (fst (open connection w) = Normal connection ->
   issued w (snd (open connection w)) = loads) /\
  (never_raises -> fst (open connection w) = Normal connection).
Proof.
  intros Hst Hreg. cbv zeta.
  destruct (open_issued connection w Hst) as ((n & Hn) & Hall).
  assert (Hbs : bootstrap_statements (credentials (heap w connection)) =
                extension_statements (credentials (heap w connection))).
  { unfold bootstrap_statements, storage_statements. rewrite Hreg. apply app_nil_r. }
  rewrite Hbs in *. repeat split.
  - exists n. exact Hn.
  - intros q Hq. rewrite Hn in Hq. apply In_firstn_In, in_extension_statements in Hq.
    destruct Hq as (exts & x & _ & _ & ->). reflexivity.
  - intros Hq. rewrite Hn in Hq. apply In_firstn_In, in_extension_statements in Hq.
    destruct Hq as (exts & x & Hexts & Hx & Heq). exists exts. split; [exact Hexts |].
    change "LOAD 'httpfs'" with ("LOAD '" ++ ("httpfs" ++ "'")) in Heq.
    cbn [append] in Heq. injection Heq as Heq.
    change "httpfs'" with ("httpfs" ++ "'") in Heq.
    apply append_inv_tail in Heq. subst x. exact Hx.
  - exact Hall.
  - intros Hnr. apply (open_never_raises connection w Hnr Hst).
    unfold rejected. rewrite Hreg. reflexivity.
Qed.

(** When the engine raises nothing, every planned call is made, also for a
    descriptor that is rejected in the end. *)
Lemma open_never_raises_calls (connection : ref) (w : World) :
  never_raises ->
  state (heap w connection) <> OPEN ->
  new_calls w (snd (open connection w)) =
    planned_calls (length (calls w)) (credentials (heap w connection)).
Proof.
  intros Hnr Hst.
  destruct (open_spec connection w Hst) as (_ & _ & k & _ & Hcalls & Hok & Hraise).
  rewrite (new_calls_app _ _ _ Hcalls).
  assert (Hno : forall e hist c, engine hist c <> Raised e).
  { intros e hist c He. destruct (Hnr hist c) as [v Hv]. congruence. }
  destruct (fst (open connection w)) as [c' | e] eqn:E.
  - destruct (Hok c' eq_refl) as (_ & Hall & _). exact Hall.
  - destruct (Hraise e eq_refl)
      as [(_ & hist & c & He) | (e0 & _ & _ & _ & _ & [(hist & c & He) | (_ & _ & Hall)])].
    + destruct (Hno _ _ _ He).
    + destruct (Hno _ _ _ He).
    + exact Hall.
Qed.

(** A descriptor with a region and neither a session token nor an access key
    is rejected: with an engine that raises nothing, [open] fails the
    connection with the configuration error's text. *)
Lemma open_rejected_fails (connection : ref) (w : World) :
  never_raises ->
  state (heap w connection) <> OPEN ->
  rejected (credentials (heap w connection)) = true ->
  fst (open connection w) =
    Raised (MkExn FailedToConnectException (py_str config_error) None) /\
  state (heap (snd (open connection w)) connection) = FAIL /\
  handle (heap (snd (open connection w)) connection) = None.
Proof.
  intros Hnr Hst Hrej.
  destruct (open_spec connection w Hst) as (_ & _ & k & _ & _ & Hok & Hraise).
  assert (Hno : forall e hist c, engine hist c <> Raised e).
  { intros e hist c He. destruct (Hnr hist c) as [v Hv]. congruence. }
  destruct (fst (open connection w)) as [c' | e] eqn:E.
  - destruct (Hok c' eq_refl) as (_ & _ & Hr & _). congruence.
  - destruct (Hraise e eq_refl)
      as [(_ & hist & c & He) | (e0 & He & _ & Hs & Hh & [(hist & c & He0) | (-> & _ & _)])].
    + destruct (Hno _ _ _ He).
    + destruct (Hno _ _ _ He0).
    + subst e. auto.
Qed.

(** C5. When the [try] body of [open] (connect, wrap, bootstrap) raises a
    [RuntimeError], [open] raises [FailedToConnectException] whose message is
    [str] of that error, the connection's state is failed and its handle is
    [None].  The calls made up to the failure stay as they are: the handler
    adds none, and they are an initial segment of the planned calls, so the
    loads that went through are not undone. *)
Theorem C5_runtime_failure_fails_connection (connection : ref) (w : World) (e : exn) :
  state (heap w connection) <> OPEN ->
  fst (open_try connection (credentials (heap w connection)) w) = Raised e ->
  isinstance e RuntimeError = true ->
  let w1 := snd (open_try connection (credentials (heap w connection)) w) in
  let w' := snd (open connection w) in
  fst (open connection w) = Raised (MkExn FailedToConnectException (py_str e) None) /\
  state (heap w' connection) = FAIL /\
  handle (heap w' connection) = None /\
  calls w' = calls w1 /\
  (exists k, 1 <= k /\
     new_calls w w' =
       firstn k (planned_calls (length (calls w)) (credentials (heap w connection)))) /\
  (exists n, issued w w' =
       firstn n (bootstrap_statements (credentials (heap w connection)))).
Proof.
  intros Hst Htry Hcls. cbv zeta.
  destruct (open_spec connection w Hst) as (_ & _ & k & Hk & Hcalls & _ & _).
  destruct (open_issued connection w Hst) as (Hn & _).
  pose proof (new_calls_app _ _ _ Hcalls) as Hnew.
  rewrite (open_cases _ _ Hst) in *.
  destruct (open_try connection (credentials (heap w connection)) w) as [[[] | e1] w1];
    cbn [fst snd] in *; [discriminate Htry |].
  inversion Htry; subst e1. rewrite Hcls in *. cbn [fst snd] in *.
  pose proof (open_except_spec connection e w1) as (_ & Xcalls & Xst & Xh & _).
  repeat split; trivial. exists k. split; trivial.
Qed.

(** C9. With a region, no session token, an access key and no secret, [open]
    does not reject the descriptor: it issues [SET s3_access_key_id = '<key>']
    and then [SET s3_secret_access_key = 'None'] after the region statements
    (an initial segment of the sequence if a statement raises), an exception
    of [open] can only be an engine failure, passed on or wrapped, and with an
    engine that raises nothing [open] returns with the state open. *)
Theorem C9_access_key_without_secret
    (connection : ref) (w : World) (region key : string) :
  state (heap w connection) <> OPEN ->
  s3_region (credentials (heap w connection)) = Some region ->
  s3_session_token (credentials (heap w connection)) = None ->
  s3_access_key_id (credentials (heap w connection)) = Some key ->
  s3_secret_access_key (credentials (heap w connection)) = None ->
  let storage := ["LOAD 'httpfs'";
                  "SET s3_region = '" ++ region ++ "'";
                  "SET s3_access_key_id = '" ++ key ++ "'";
                  "SET s3_secret_access_key = 'None'"] in
  let loads := extension_statements (credentials (heap w connection)) in
  let w' := snd (open connection w) in
  (exists n, issued w w' = firstn n (loads ++ storage)%list) /\
  (forall e, fst (open connection w) = Raised e ->
     exists hist c e0, engine hist c = Raised e0 /\
       (e = e0 \/ e = MkExn FailedToConnectException (py_str e0) None)) /\
  (never_raises ->
     fst (open connection w) = Normal connection /\
     state (heap w' connection) = OPEN /\
     issued w w' = (loads ++ storage)%list).
Proof.
  intros Hst Hreg Htok Hkey Hsec. cbv zeta.
  destruct (open_issued connection w Hst) as ((n & Hn) & Hall).
  destruct (open_spec connection w Hst) as (_ & _ & k & _ & _ & Hok & Hraise).
  assert (Hrej : rejected (credentials (heap w connection)) = false).
  { unfold rejected. rewrite Hreg, Htok, Hkey. reflexivity. }
  assert (Hbs : bootstrap_statements (credentials (heap w connection)) =
                (extension_statements (credentials (heap w connection)) ++
                 ["LOAD 'httpfs'"; ("SET s3_region = '" ++ region ++ "'")%string;
                  ("SET s3_access_key_id = '" ++ key ++ "'")%string;
                  "SET s3_secret_access_key = 'None'"])%list).
  { unfold bootstrap_statements, storage_statements.
    rewrite Hreg, Htok, Hkey, Hsec. reflexivity. }
  rewrite Hbs in *. repeat split.
  - exists n. exact Hn.
  - intros e He.
    destruct (Hraise e He)
      as [(_ & hist & c & Heng) | (e0 & -> & _ & _ & _ & [(hist & c & Heng) | (_ & Hr & _)])].
    + exists hist, c, e. auto.
    + exists hist, c, e0. auto.
    + congruence.
  - apply (open_never_raises connection w H Hst Hrej).
  - pose proof (open_never_raises connection w H Hst Hrej) as Hn'.
    destruct (Hok _ Hn') as (_ & _ & _ & Hopen & _). exact Hopen.
  - apply Hall. apply (open_never_raises connection w H Hst Hrej).
Qed.

(** C10. [open] returns early for the state open only: on a connection whose
    state is failed, closed or uninitialised it calls [duckdb.connect] again
    for the descriptor's path, in read/write mode, and goes through the
    bootstrap from the start.  The calls made are an initial segment of the
    planned calls, at least the connect; all of them when the engine raises
    nothing; and when [open] returns, the connection holds the wrapper of the
    newly built engine objects and its state is open. *)
Theorem C10_open_reconnects (connection : ref) (w : World) :
  state (heap w connection) = FAIL \/
  state (heap w connection) = CLOSED \/
  state (heap w connection) = INIT ->
  let creds := credentials (heap w connection) in
  let plan := planned_calls (length (calls w)) creds in
  let w' := snd (open connection w) in
  (exists rest, new_calls w w' = Connect (path creds) false :: rest) /\
  (exists k, 1 <= k /\ new_calls w w' = firstn k plan) /\
  (fst (open connection w) = Normal connection ->
     new_calls w w' = plan /\
     state (heap w' connection) = OPEN /\
     handle (heap w' connection) = Some (fresh_handle w)) /\
  (never_raises -> new_calls w w' = plan).
Proof.
  intros Hstate. cbv zeta.
  assert (Hst : state (heap w connection) <> OPEN).
  { destruct Hstate as [H | [H | H]]; rewrite H; discriminate. }
  destruct (open_spec connection w Hst) as (_ & _ & k & Hk & Hcalls & Hok & _).
  pose proof (new_calls_app _ _ _ Hcalls) as Hnew. rewrite Hnew.
  repeat split.
  - destruct k as [| k]; [lia |]. unfold planned_calls. cbn [firstn]. eauto.
  - exists k. auto.
  - destruct (Hok _ H) as (_ & Hall & _). exact Hall.
  - destruct (Hok _ H) as (_ & _ & _ & Hopen & _). exact Hopen.
  - destruct (Hok _ H) as (_ & _ & _ & _ & Hh & _). exact Hh.
  - intros Hnr. rewrite <- Hnew. apply (open_never_raises_calls connection w Hnr Hst).
Qed.

(* ------------------------------------------------------------------ *)
(** * Further properties of [open] *)
(* ------------------------------------------------------------------ *)

(** X1. With a region, no session token and both the access key and the secret,
    the statements are the extension loads followed by [LOAD 'httpfs'] and
    the region, key and secret statements, in that order; no statement sets
    the session token. *)
Theorem open_key_secret_pair
    (connection : ref) (w : World) (region key secret : string) :
  state (heap w connection) <> OPEN ->
  s3_region (credentials (heap w connection)) = Some region ->
  s3_session_token (credentials (heap w connection)) = None ->
  s3_access_key_id (credentials (heap w connection)) = Some key ->
  s3_secret_access_key (credentials (heap w connection)) = Some secret ->
  let storage := ["LOAD 'httpfs'";
                  "SET s3_region = '" ++ region ++ "'";
                  "SET s3_access_key_id = '" ++ key ++ "'";
                  "SET s3_secret_access_key = '" ++ secret ++ "'"] in
  let loads := extension_statements (credentials (heap w connection)) in
  let w' := snd (open connection w) in
  (exists n, issued w w' = firstn n (loads ++ storage)%list) /\
  (forall q, In q (issued w w') -> sets_session_token q = false) /\
  (fst (open connection w) = Normal connection ->
     issued w w' = (loads ++ storage)%list) /\
  (never_raises ->
     fst (open connection w) = Normal connection /\
     state (heap w' connection) = OPEN).
Proof.
  intros Hst Hreg Htok Hkey Hsec. cbv zeta.
  destruct (open_issued connection w Hst) as ((n & Hn) & Hall).
  destruct (open_spec connection w Hst) as (_ & _ & k & _ & _ & Hok & _).
  assert (Hrej : rejected (credentials (heap w connection)) = false).
  { unfold rejected. rewrite Hreg, Htok, Hkey. reflexivity. }
  assert (Hbs : bootstrap_statements (credentials (heap w connection)) =
                (extension_statements (credentials (heap w connection)) ++
                 ["LOAD 'httpfs'"; ("SET s3_region = '" ++ region ++ "'")%string;
                  ("SET s3_access_key_id = '" ++ key ++ "'")%string;
                  ("SET s3_secret_access_key = '" ++ secret ++ "'")%string])%list).
  { unfold bootstrap_statements, storage_statements.
    rewrite Hreg, Htok, Hkey, Hsec. reflexivity. }
  rewrite Hbs in *. split; [| split; [| split; [| intros Hnr; split]]].
  - exists n. exact Hn.
  - intros q Hq. rewrite Hn in Hq. apply In_firstn_In, in_app_or in Hq.
    destruct Hq as [Hq | Hq].
    + apply in_extension_statements in Hq. destruct Hq as (exts & x & _ & _ & ->).
      reflexivity.
    + cbn [In] in Hq. destruct Hq as [<- | [<- | [<- | [<- | []]]]]; reflexivity.
  - exact Hall.
  - apply (open_never_raises connection w Hnr Hst Hrej).
  - pose proof (open_never_raises connection w Hnr Hst Hrej) as Hn'.
    destruct (Hok _ Hn') as (_ & _ & _ & Hopen & _). exact Hopen.
Qed.

(** X2. With a region and neither a session token nor an access key, [open]
    never returns normally, whatever the secret holds.  The descriptor is
    rejected late: [LOAD 'httpfs'] and the region statement go to the engine
    first, and when the engine raises nothing [open] then fails the
    connection with [str] of the configuration error. *)
Theorem open_rejects_after_region_statements
    (connection : ref) (w : World) (region : string) :
  state (heap w connection) <> OPEN ->
  s3_region (credentials (heap w connection)) = Some region ->
  s3_session_token (credentials (heap w connection)) = None ->
  s3_access_key_id (credentials (heap w connection)) = None ->
  let early := ["LOAD 'httpfs'"; "SET s3_region = '" ++ region ++ "'"] in
  let loads := extension_statements (credentials (heap w connection)) in
  let w' := snd (open connection w) in
  (exists n, issued w w' = firstn n (loads ++ early)%list) /\
  fst (open connection w) <> Normal connection /\
  (never_raises ->
     fst (open connection w) =
       Raised (MkExn FailedToConnectException (py_str config_error) None) /\
     state (heap w' connection) = FAIL /\
     handle (heap w' connection) = None /\
     issued w w' = (loads ++ early)%list).
Proof.
  intros Hst Hreg Htok Hkey. cbv zeta.
  destruct (open_issued connection w Hst) as ((n & Hn) & _).
  destruct (open_spec connection w Hst) as (_ & _ & k & _ & _ & Hok & _).
  assert (Hrej : rejected (credentials (heap w connection)) = true).
  { unfold rejected. rewrite Hreg, Htok, Hkey. reflexivity. }
  assert (Hbs : bootstrap_statements (credentials (heap w connection)) =
                (extension_statements (credentials (heap w connection)) ++
                 ["LOAD 'httpfs'"; ("SET s3_region = '" ++ region ++ "'")%string])%list).
  { unfold bootstrap_statements, storage_statements.
    rewrite Hreg, Htok, Hkey. reflexivity. }
  rewrite Hbs in *. split; [| split].
  - exists n. exact Hn.
  - intros Hn'. destruct (Hok _ Hn') as (_ & _ & Hr & _). congruence.
  - intros Hnr.
    destruct (open_rejected_fails connection w Hnr Hst Hrej) as (H1 & H2 & H3).
    repeat split; trivial.
    unfold issued. rewrite (open_never_raises_calls connection w Hnr Hst).
    rewrite statements_plan. exact Hbs.
Qed.

(** X3. When [duckdb.connect] raises an exception that is not a [RuntimeError],
    [open] lets it through unchanged: the connection object keeps the state
    and handle it had, nothing is logged, and the connect is the only call
    made. *)
Theorem open_connect_failure_passes (connection : ref) (w : World) (e : exn) :
  state (heap w connection) <> OPEN ->
  engine (calls w) (Connect (path (credentials (heap w connection))) false) = Raised e ->
  isinstance e RuntimeError = false ->
  fst (open connection w) = Raised e /\
  heap (snd (open connection w)) = heap w /\
  debug_log (snd (open connection w)) = debug_log w /\
  new_calls w (snd (open connection w)) =
    [Connect (path (credentials (heap w connection))) false].
Proof.
  intros Hst Heng Hcls.
  rewrite (open_cases _ _ Hst), open_try_plan, open_plan_eq. cbv zeta.
  rewrite Heng, Hcls. cbn [fst snd record_call heap debug_log].
  repeat split. apply new_calls_app. reflexivity.
Qed.

(** X4. When the engine has accepted the connect and the cursor, and [open] then
    raises an exception that is not a [RuntimeError] (a bootstrap statement
    raised it), the connection is left with the state open and the new
    handle, although [open] did not return; nothing is logged. *)
Theorem open_bootstrap_failure_leaves_open
    (connection : ref) (w : World) (e : exn) (v1 v2 : value) :
  state (heap w connection) <> OPEN ->
  engine (calls w) (Connect (path (credentials (heap w connection))) false) = Normal v1 ->
  engine (calls w ++ [Connect (path (credentials (heap w connection))) false])%list
         (Cursor (length (calls w))) = Normal v2 ->
  fst (open connection w) = Raised e ->
  isinstance e RuntimeError = false ->
  state (heap (snd (open connection w)) connection) = OPEN /\
  handle (heap (snd (open connection w)) connection) = Some (fresh_handle w) /\
  debug_log (snd (open connection w)) = debug_log w.
Proof.
  intros Hst Hc1 Hc2. rewrite (open_cases _ _ Hst), open_try_plan, open_plan_eq.
  cbv zeta. cbn [record_call calls]. rewrite Hc1, Hc2.
  match goal with |- context [exec_all ?h ?qs ?w4] =>
    destruct (exec_all_spec h qs w4) as (Hlog & Hheap & _);
    destruct (exec_all h qs w4) as [[[] | e1] w5]
  end; cbn [fst snd] in *.
  - destruct (rejected (credentials (heap w connection))); cbn [fst snd].
    + rewrite config_error_is_runtime_error. cbn [fst]. intros He Hcls.
      inversion He; subst e. discriminate Hcls.
    + discriminate.
  - destruct (isinstance e1 RuntimeError) eqn:E1; cbn [fst snd]; intros He Hcls;
      inversion He; subst e; [discriminate Hcls |].
    rewrite Hlog, Hheap. unfold connected, set_handle, set_state, update.
    cbn [snd heap debug_log record_call calls]. rewrite !Nat.eqb_refl.
    cbn [state handle]. repeat split.
    unfold fresh_handle. rewrite length_app, Nat.add_1_r. reflexivity.
Qed.

(** X5. An exception that leaves [open] is never a bare [RuntimeError]: either it
    is an engine exception outside [RuntimeError], or it is the
    [FailedToConnectException] built by the handler, and then the connection
    is failed and has no handle. *)
Theorem open_raises_classified (connection : ref) (w : World) (e : exn) :
  fst (open connection w) = Raised e ->
  (isinstance e RuntimeError = false /\ exists hist c, engine hist c = Raised e) \/
  (exn_class e = FailedToConnectException /\ exn_cause e = None /\
   state (heap (snd (open connection w)) connection) = FAIL /\
   handle (heap (snd (open connection w)) connection) = None).
Proof.
  intros He.
  assert (Hst : state (heap w connection) <> OPEN).
  { intros Hopen. rewrite (open_already_open _ _ Hopen) in He. discriminate He. }
  destruct (open_spec connection w Hst) as (_ & _ & k & _ & _ & _ & Hraise).
  destruct (Hraise e He) as [H | (e0 & -> & _ & Hs & Hh & _)]; [left; exact H |].
  right. repeat split; trivial.
Qed.

Lemma open_calls_of_plan (connection : ref) (w : World) :
  state (heap w connection) <> OPEN ->
  calls (snd (open connection w)) =
    calls (snd (open_plan connection (credentials (heap w connection)) w)) /\
  exists lines,
    debug_log (snd (open connection w)) = (debug_log w ++ lines)%list /\
    length lines <= 1.
Proof.
  intros Hst. rewrite (open_cases _ _ Hst), open_try_plan.
  pose proof (open_plan_spec connection (credentials (heap w connection)) w) as HP.
  cbv zeta in HP. destruct HP as (Hlog & _).
  destruct (open_plan connection (credentials (heap w connection)) w) as [[[] | e] w1];
    cbn [fst snd] in *.
  - split; [reflexivity |]. exists []. rewrite app_nil_r. auto.
  - destruct (isinstance e RuntimeError); cbn [snd].
    + pose proof (open_except_spec connection e w1) as (_ & Xcalls & _ & _ & _ & _ & Xlog).
      split; [exact Xcalls |]. rewrite Xlog, Hlog. eexists. split; [reflexivity |].
      cbn. lia.
    + split; [reflexivity |]. exists []. rewrite app_nil_r. auto.
Qed.

(** X6. [open] changes nothing but the connection it is given, and of that one
    never the credentials; it only adds to the engine calls and to the debug
    log, at most one line. *)
Theorem open_frame (connection : ref) (w : World) :
  (forall r', r' <> connection -> heap (snd (open connection w)) r' = heap w r') /\
  credentials (heap (snd (open connection w)) connection) =
    credentials (heap w connection) /\
  (exists l, calls (snd (open connection w)) = (calls w ++ l)%list) /\
  (exists lines, debug_log (snd (open connection w)) = (debug_log w ++ lines)%list /\
                 length lines <= 1).
Proof.
  destruct (state (heap w connection)) eqn:E;
    try (assert (Hst : state (heap w connection) <> OPEN) by (rewrite E; discriminate);
         destruct (open_spec connection w Hst) as (Hheap & Hcred & k & _ & Hcalls & _);
         destruct (open_calls_of_plan connection w Hst) as (_ & Hlog);
         repeat split; eauto).
  rewrite (open_already_open _ _ E). cbn [snd heap calls debug_log].
  repeat split; trivial.
  - exists []. rewrite app_nil_r. reflexivity.
  - eexists. split; [reflexivity |]. cbn. lia.
Qed.

(** X7. Once [open] has returned, a second [open] of the same connection returns
    it again and makes no engine call; the connection objects stay as the
    first call left them. *)
Theorem open_then_open (connection : ref) (w : World) :
  fst (open connection w) = Normal connection ->
  let w1 := snd (open connection w) in
  fst (open connection w1) = Normal connection /\
  new_calls w1 (snd (open connection w1)) = [] /\
  heap (snd (open connection w1)) = heap w1.
Proof.
  intros Hn. cbv zeta.
  assert (Hopen : state (heap (snd (open connection w)) connection) = OPEN).
  { destruct (state (heap w connection)) eqn:E;
      try (assert (Hst : state (heap w connection) <> OPEN) by (rewrite E; discriminate);
           destruct (open_spec connection w Hst) as (_ & _ & k & _ & _ & Hok & _);
           destruct (Hok _ Hn) as (_ & _ & _ & H & _); exact H).
    rewrite (open_already_open _ _ E). exact E. }
  rewrite (open_already_open _ _ Hopen). cbn [fst snd heap].
  repeat split. apply new_calls_app. cbn [calls]. rewrite app_nil_r. reflexivity.
Qed.

(** X8. After [open] has failed a connection (it raised an instance of
    [RuntimeError]), the state is failed and the handle is [None], so a second
    [open] does not return early: it connects again, to the same path and in
    read/write mode, and when it returns it has gone through the whole
    bootstrap, the state is open and the handle is the wrapper built by this
    second call. *)
Theorem open_retry_after_failure (connection : ref) (w : World) (e : exn) :
  fst (open connection w) = Raised e ->
  isinstance e RuntimeError = true ->
  let w1 := snd (open connection w) in
  let w2 := snd (open connection w1) in
  state (heap w1 connection) = FAIL /\
  handle (heap w1 connection) = None /\
  (exists rest,
     new_calls w1 w2 = Connect (path (credentials (heap w connection))) false :: rest) /\
  (fst (open connection w1) = Normal connection ->
     new_calls w1 w2 =
       planned_calls (length (calls w1)) (credentials (heap w connection)) /\
     state (heap w2 connection) = OPEN /\
     handle (heap w2 connection) = Some (fresh_handle w1)).
Proof.
  intros He Hcls. cbv zeta.
  assert (Hst : state (heap w connection) <> OPEN).
  { intros Hopen. rewrite (open_already_open _ _ Hopen) in He. discriminate He. }
  destruct (open_spec connection w Hst) as (_ & Hcred & k & Hk & Hcalls & _ & Hraise).
  destruct (Hraise e He) as [(Hno & _) | (e0 & _ & _ & Hfail & Hnone & _)]; [congruence |].
  assert (Hst1 : state (heap (snd (open connection w)) connection) <> OPEN)
    by (rewrite Hfail; discriminate).
  destruct (open_spec connection (snd (open connection w)) Hst1)
    as (_ & _ & k1 & Hk1 & Hcalls1 & Hok1 & _).
  split; [exact Hfail |]. split; [exact Hnone |].
  rewrite (new_calls_app _ _ _ Hcalls1), Hcred. split.
  - destruct k1 as [| k1]; [lia |]. unfold planned_calls. cbn [firstn]. eauto.
  - intros Hn. destruct (Hok1 _ Hn) as (_ & Hall & _ & Hopen & Hh & _).
    rewrite Hcred in Hall. repeat split; trivial.
Qed.

Lemma filter_firstn_execute (f : call -> bool) (hid : obj) (qs : list string) n :
  (forall q, f (Execute hid q) = false) ->
  filter f (firstn n (map (Execute hid) qs)) = [].
Proof.
  intros Hf. revert n. induction qs as [| q qs IH]; intros [| n]; cbn; trivial.
  rewrite Hf. apply IH.
Qed.

(** X9. An [open] on a connection that is not open calls [duckdb.connect] exactly
    once, with the descriptor's path and [read_only=False], and asks for at
    most one cursor. *)
Theorem open_connects_once_read_write (connection : ref) (w : World) :
  state (heap w connection) <> OPEN ->
  filter is_connect (new_calls w (snd (open connection w))) =
    [Connect (path (credentials (heap w connection))) false] /\
  length (filter is_cursor (new_calls w (snd (open connection w)))) <= 1.
Proof.
  intros Hst.
  destruct (open_spec connection w Hst) as (_ & _ & k & Hk & Hcalls & _).
  rewrite (new_calls_app _ _ _ Hcalls). unfold planned_calls.
  destruct k as [| [| k]]; [lia | cbn; auto |].
  cbn [firstn filter is_connect is_cursor].
  rewrite !filter_firstn_execute by reflexivity. cbn. auto.
Qed.

Lemma accepted_but_last_one (hist : list call) (c : call) :
  accepted_but_last hist [c].
Proof.
  intros l1 c' l2 Heq Hne. destruct l1 as [| x l1]; cbn in Heq.
  - inversion Heq; subst. congruence.
  - inversion Heq as [[Hx Hrest]]. destruct l1; discriminate Hrest.
Qed.

Lemma accepted_but_last_cons (hist : list call) (c : call) (v : value) (l : list call) :
  engine hist c = Normal v ->
  accepted_but_last (hist ++ [c]) l ->
  accepted_but_last hist (c :: l).
Proof.
  intros Hc Hl l1 c' l2 Heq Hne. destruct l1 as [| x l1]; cbn in Heq.
  - inversion Heq; subst. rewrite app_nil_r. eauto.
  - inversion Heq as [[Hx Hrest]]. subst x.
    destruct (Hl l1 c' l2 Hrest Hne) as [v' Hv']. exists v'.
    rewrite <- app_assoc in Hv'. exact Hv'.
Qed.

Lemma exec_all_accepted (h : DuckDBConnectionWrapper.t) (qs : list string) :
  forall w, exists l,
    calls (snd (exec_all h qs w)) = (calls w ++ l)%list /\
    accepted_but_last (calls w) l.
Proof.
  induction qs as [| q qs IH]; intros w.
  - exists []. cbn. rewrite app_nil_r. split; [reflexivity |].
    intros l1 c l2 Heq. destruct l1; discriminate Heq.
  - rewrite exec_all_cons.
    destruct (engine (calls w) (Execute (DuckDBConnectionWrapper._conn h) q)) as [v | e] eqn:E.
    + destruct (IH (record_call (Execute (DuckDBConnectionWrapper._conn h) q) w))
        as (l & Hcalls & Hacc).
      cbn [record_call calls] in *.
      exists (Execute (DuckDBConnectionWrapper._conn h) q :: l). split.
      * rewrite Hcalls, <- app_assoc. reflexivity.
      * exact (accepted_but_last_cons _ _ _ _ E Hacc).
    + exists [Execute (DuckDBConnectionWrapper._conn h) q]. split; [reflexivity |].
      apply accepted_but_last_one.
Qed.

Lemma open_plan_accepted (connection : ref) (creds : DuckDBCredentials) (w : World) :
  accepted_but_last (calls w) (new_calls w (snd (open_plan connection creds w))).
Proof.
  rewrite open_plan_eq. cbv zeta.
  destruct (engine (calls w) (Connect (path creds) false)) as [v1 | e1] eqn:E1.
  2:{ rewrite (new_calls_app _ _ [Connect (path creds) false]) by reflexivity.
      apply accepted_but_last_one. }
  cbn [record_call calls].
  destruct (engine _ (Cursor (length (calls w)))) as [v2 | e2] eqn:E2.
  2:{ rewrite (new_calls_app _ _ [Connect (path creds) false; Cursor (length (calls w))])
        by (cbn [snd record_call calls]; rewrite <- app_assoc; reflexivity).
      apply (accepted_but_last_cons _ _ _ _ E1). apply accepted_but_last_one. }
  match goal with |- context [exec_all ?h ?qs ?w4] =>
    destruct (exec_all_accepted h qs w4) as (l & Hl & Hacc);
    destruct (exec_all h qs w4) as [[[] | e] w5]
  end; cbn [snd] in Hl.
  all: assert (Hw5 : calls w5 =
                     (calls w ++ Connect (path creds) false
                              :: Cursor (length (calls w)) :: l)%list)
    by (rewrite Hl; unfold connected, set_handle, set_state, update;
        cbn [snd calls record_call]; rewrite <- !app_assoc; reflexivity).
  all: unfold connected, set_handle, set_state, update in Hacc;
    cbn [snd calls record_call] in Hacc.
  - assert (Hnew : new_calls w
                     (snd (if rejected creds
                           then (@Raised unit config_error, w5) else (Normal tt, w5))) =
                   Connect (path creds) false :: Cursor (length (calls w)) :: l)
      by (apply new_calls_app; destruct (rejected creds); exact Hw5).
    rewrite Hnew.
    apply (accepted_but_last_cons _ _ _ _ E1), (accepted_but_last_cons _ _ _ _ E2), Hacc.
  - cbn [snd]. rewrite (new_calls_app _ _ _ Hw5).
    apply (accepted_but_last_cons _ _ _ _ E1), (accepted_but_last_cons _ _ _ _ E2), Hacc.
Qed.

(** X10. [open] stops at the first call that raises: whenever a call of [open] is
    followed by another one, the engine had accepted it. *)
Theorem open_stops_at_first_failure
    (connection : ref) (w : World) (l1 l2 : list call) (c : call) :
  new_calls w (snd (open connection w)) = (l1 ++ c :: l2)%list ->
  l2 <> [] ->
  exists v, engine (calls w ++ l1)%list c = Normal v.
Proof.
  intros Heq Hne.
  destruct (state (heap w connection)) eqn:Est.
  2:{ rewrite (open_already_open _ _ Est) in Heq.
      rewrite (new_calls_app _ _ []) in Heq by (cbn; rewrite app_nil_r; reflexivity).
      destruct l1; discriminate Heq. }
  all: assert (Hst : state (heap w connection) <> OPEN) by (rewrite Est; discriminate);
    destruct (open_calls_of_plan connection w Hst) as (Hcalls & _);
    unfold new_calls in Heq; rewrite Hcalls in Heq;
    exact (open_plan_accepted connection (credentials (heap w connection)) w
             l1 c l2 Heq Hne).
Qed.

(* ------------------------------------------------------------------ *)
(** * Further properties of the scope and of the cursor wrapper *)
(* ------------------------------------------------------------------ *)

(** X11. The error-handling scope makes no engine call and changes no connection
    object of its own: calls and connections are as the body left them.  It
    only adds lines to the debug log, and none when the body does not raise. *)
Theorem exception_handler_effects
    (sql connection_name : string) (body : M unit) (w : World) :
  let r := exception_handler sql connection_name body w in
  calls (snd r) = calls (snd (body w)) /\
  heap (snd r) = heap (snd (body w)) /\
  exists lines,
    debug_log (snd r) = (debug_log (snd (body w)) ++ lines)%list /\
    (forall u, fst (body w) = Normal u -> lines = [] /\ fst r = Normal u).
Proof.
  cbv zeta. rewrite exception_handler_run.
  destruct (body w) as [[[] | e] w1]; cbn [fst snd].
  - repeat split. exists []. rewrite app_nil_r. repeat split; congruence.
  - destruct (isinstance e RuntimeException); [| destruct (isinstance e RuntimeError);
                                                   [| destruct (isinstance e Exception)]];
      cbn [fst snd calls heap debug_log]; repeat split;
      first [ exists []; rewrite app_nil_r; split; [reflexivity | discriminate]
            | eexists; split; [reflexivity | discriminate]
            | eexists; split; [rewrite <- app_assoc; reflexivity | discriminate] ].
Qed.

(** X12. No bare [RuntimeError] leaves the scope: an instance of
    [RuntimeError] that leaves it is an instance of the host's
    [RuntimeException].  Whatever else leaves it is an exception outside
    [Exception], or the very [StopIteration] the body raised. *)
Theorem exception_handler_escapes
    (sql connection_name : string) (body : M unit) (w : World) (e : exn) :
  fst (exception_handler sql connection_name body w) = Raised e ->
  (isinstance e RuntimeError = true -> isinstance e RuntimeException = true) /\
  (isinstance e RuntimeException = true \/
   isinstance e Exception = false \/
   (isinstance e StopIteration = true /\ fst (body w) = Raised e)).
Proof.
  rewrite exception_handler_run.
  destruct (body w) as [[[] | e1] w1]; cbn [fst snd]; [discriminate |].
  destruct (isinstance e1 RuntimeException) eqn:E1;
    [| destruct (isinstance e1 RuntimeError) eqn:E2;
       [| destruct (isinstance e1 Exception) eqn:E3;
          [destruct (isinstance e1 StopIteration) eqn:E4 |]]];
    cbn [fst snd]; intros He; inversion He; subst; split; auto; congruence.
Qed.

(** X13. A scope inside a scope lets out what the inner scope alone lets out,
    with the same engine calls and connection objects; when the body does not
    raise a [StopIteration], the log is the same too, so that the outer scope
    adds nothing at all. *)
Theorem exception_handler_nested
    (sql sql' connection_name connection_name' : string) (body : M unit) (w : World) :
  let inner := exception_handler sql connection_name body in
  let outer := exception_handler sql' connection_name' inner in
  fst (outer w) = fst (inner w) /\
  calls (snd (outer w)) = calls (snd (inner w)) /\
  heap (snd (outer w)) = heap (snd (inner w)) /\
  ((forall e, fst (body w) = Raised e -> isinstance e StopIteration = false) ->
   outer w = inner w).
Proof.
  cbv zeta.
  rewrite (exception_handler_run sql' connection_name').
  pose proof (exception_handler_escapes sql connection_name body w) as Hesc.
  destruct (exception_handler sql connection_name body w) as [[[] | e] w1];
    [repeat split |].
  cbn [fst snd] in *.
  destruct (Hesc e eq_refl) as (_ & [H | [H | (H & Hb)]]).
  - rewrite H. repeat split.
  - destruct (not_exception_not_runtime_error e H) as (H1 & _).
    rewrite (not_runtime_error_not_dbt _ H1), H1, H. repeat split.
  - destruct (stop_iteration_is_exception e H) as (H2 & H1).
    rewrite (not_runtime_error_not_dbt _ H1), H1, H2, H. cbn [fst snd calls heap].
    repeat split. intros Hno. rewrite (Hno e Hb) in H. discriminate H.
Qed.

Lemma scope_around_one_call (c : call) (sql connection_name : string) (w : World) :
  let r := exception_handler sql connection_name
             (_ <- try_except (engine_call c)
                     [(RuntimeError,
                       fun e => raise (MkExn RuntimeException (py_str e) None))] ;;
              ret tt) w in
  (forall v, engine (calls w) c = Normal v -> fst r = Normal tt) /\
  (forall e, engine (calls w) c = Raised e -> isinstance e RuntimeError = true ->
     fst r = Raised (MkExn RuntimeException (py_str e) None)) /\
  (forall e, engine (calls w) c = Raised e -> isinstance e RuntimeError = false ->
     isinstance e Exception = true -> isinstance e StopIteration = false ->
     fst r = Raised (MkExn RuntimeException (py_str e) (Some e))) /\
  (forall e, engine (calls w) c = Raised e ->
     isinstance e StopIteration = true \/ isinstance e Exception = false ->
     fst r = Raised e).
Proof.
  cbv zeta. rewrite exception_handler_run.
  unfold try_except, bind, engine_call, ret. cbv beta.
  destruct (engine (calls w) c) as [v | e] eqn:E; cbn [dispatch fst snd].
  - repeat split; intros; congruence.
  - split; [intros; congruence |]. split; [| split].
    + intros e' He' H1. inversion He'; subst e'. rewrite H1. reflexivity.
    + intros e' He' H1 H2 H3. inversion He'; subst e'. rewrite H1.
      unfold raise. cbv beta iota.
      rewrite (not_runtime_error_not_dbt _ H1), H1, H2, H3. reflexivity.
    + intros e' He' H. inversion He'; subst e'.
      destruct H as [H | H].
      * destruct (stop_iteration_is_exception e H) as (H2 & H1).
        rewrite H1. unfold raise. cbv beta iota.
        rewrite (not_runtime_error_not_dbt _ H1), H1, H2, H. reflexivity.
      * destruct (not_exception_not_runtime_error e H) as (H1 & _).
        rewrite H1. unfold raise. cbv beta iota.
        rewrite (not_runtime_error_not_dbt _ H1), H1, H. reflexivity.
Qed.

(** X14. A statement run through the cursor wrapper inside the scope: a normal
    result ends the scope normally; an engine [RuntimeError] leaves the scope
    as [RuntimeException] with [str] of it as message (the wrapper has already
    turned it into the host's error, so the scope's clause that suppresses a
    [RuntimeError] does not apply); any other [Exception] of the engine,
    [StopIteration] apart, leaves as a [RuntimeException] with the same
    message and the engine's exception as cause; a [StopIteration] and an
    exception outside [Exception] leave unchanged. *)
Theorem scope_around_cursor_execute
    (self : DuckDBCursorWrapper.t) (sql connection_name : string)
    (bindings : option (list string)) (w : World) :
  let c := match bindings with
           | None => Execute (DuckDBCursorWrapper._cursor self) sql
           | Some b => ExecuteBind (DuckDBCursorWrapper._cursor self) sql b
           end in
  let r := exception_handler sql connection_name
             (_ <- DuckDBCursorWrapper_execute self sql bindings ;; ret tt) w in
  (forall v, engine (calls w) c = Normal v -> fst r = Normal tt) /\
  (forall e, engine (calls w) c = Raised e -> isinstance e RuntimeError = true ->
     fst r = Raised (MkExn RuntimeException (py_str e) None)) /\
  (forall e, engine (calls w) c = Raised e -> isinstance e RuntimeError = false ->
     isinstance e Exception = true -> isinstance e StopIteration = false ->
     fst r = Raised (MkExn RuntimeException (py_str e) (Some e))) /\
  (forall e, engine (calls w) c = Raised e ->
     isinstance e StopIteration = true \/ isinstance e Exception = false ->
     fst r = Raised e).
Proof.
  destruct bindings as [b |]; apply scope_around_one_call.
Qed.

(** X15. A statement run on the connection wrapper inside the scope goes to the
    engine connection untranslated, so here the scope does suppress a
    low-level [RuntimeError]: the scope ends normally and the error is only
    logged. *)
Theorem scope_around_connection_execute
    (h : DuckDBConnectionWrapper.t) (sql connection_name : string)
    (w : World) (e : exn) :
  engine (calls w) (Execute (DuckDBConnectionWrapper._conn h) sql) = Raised e ->
  isinstance e RuntimeError = true ->
  isinstance e RuntimeException = false ->
  let r := exception_handler sql connection_name
             (_ <- DuckDBConnectionWrapper_execute h sql ;; ret tt) w in
  fst r = Normal tt /\
  debug_log (snd r) = (debug_log w ++ [("duckdb error: " ++ py_str e)%string])%list /\
  new_calls w (snd r) = [Execute (DuckDBConnectionWrapper._conn h) sql].
Proof.
  intros Heng H1 H2. cbv zeta.
  rewrite exception_handler_run. unfold DuckDBConnectionWrapper_execute.
  rewrite bind_eq. unfold engine_call. rewrite Heng.
  rewrite H2, H1. cbn [fst snd debug_log record_call].
  repeat split. apply new_calls_app. reflexivity.
Qed.

(** X16. The cursor wrapper's [execute] makes one engine call and touches neither
    the connections nor the log; an instance of [RuntimeError] that leaves it
    is always a plain [RuntimeException] with no cause, whatever subclass of
    [RuntimeError] the cursor raised. *)
Theorem cursor_execute_raises_translated
    (self : DuckDBCursorWrapper.t) (sql : string)
    (bindings : option (list string)) (w : World) :
  let r := DuckDBCursorWrapper_execute self sql bindings w in
  heap (snd r) = heap w /\
  debug_log (snd r) = debug_log w /\
  length (new_calls w (snd r)) = 1 /\
  (forall e, fst r = Raised e -> isinstance e RuntimeError = true ->
     exn_class e = RuntimeException /\ exn_cause e = None).
Proof.
  cbv zeta. unfold DuckDBCursorWrapper_execute, try_except.
  destruct bindings as [b |]; unfold engine_call;
    match goal with |- context [engine (calls w) ?c] =>
      destruct (engine (calls w) c) as [v | e] eqn:E;
      assert (Hn : new_calls w (record_call c w) = [c])
        by (apply new_calls_app; reflexivity)
    end; cbn [dispatch fst snd];
    try (destruct (isinstance e RuntimeError) eqn:Ecls); cbn [raise fst snd];
    (split; [reflexivity |]); (split; [reflexivity |]);
    (split; [rewrite Hn; reflexivity |]);
    intros e' He' Hc; inversion He'; subst; first [split; reflexivity | congruence].
Qed.



End Adapter.

(* ------------------------------------------------------------------ *)
(** * Concrete runs *)
(* ------------------------------------------------------------------ *)

Lemma engine_ok_never_raises : never_raises engine_ok.
Proof. intros hist c. exists 0. reflexivity. Qed.

(** C1. The descriptor with a region, an access key, no secret and no session
    token has no complete key/secret pair, yet [open] accepts it: it returns
    with the state open and a handle, having issued
    [SET s3_secret_access_key = 'None'].  The check that raises "You must
    specify either s3_session_token or s3_access_key_id and
    s3_secret_access_key" looks at the access key only. *)
Theorem C1_key_without_secret_is_accepted :
  let w := world_of creds_key_without_secret INIT in
  let r := open exn_msg engine_ok 0 w in
  rejected creds_key_without_secret = false /\
  fst r = Normal 0 /\
  state (heap (snd r) 0) = OPEN /\
  handle (heap (snd r) 0) = Some (fresh_handle w) /\
  issued w (snd r) =
    ["LOAD 'httpfs'"; "SET s3_region = 'us-east-1'";
     "SET s3_access_key_id = 'AKIA'"; "SET s3_secret_access_key = 'None'"].
Proof. vm_compute. repeat split. Qed.

(** The descriptor with a region alone is rejected, as the specification asks. *)
Example open_region_only_fails :
  let r := open exn_msg engine_ok 0 (world_of creds_region_only INIT) in
  fst r = Raised (MkExn FailedToConnectException
                    "You must specify either s3_session_token or s3_access_key_id and s3_secret_access_key"
                    None) /\
  state (heap (snd r) 0) = FAIL /\
  handle (heap (snd r) 0) = None.
Proof. vm_compute. repeat split. Qed.


(** A [StopIteration] of the body is logged like any other [Exception], and
    then leaves the scope as it is. *)
Example exception_handler_stop_iteration :
  let r := exception_handler exn_msg "select 1" "master" (raise stop_iteration)
             (world_of creds_json OPEN) in
  fst r = Raised stop_iteration /\
  debug_log (snd r) = ["Error running SQL: select 1"; "Rolling back transaction."].
Proof. vm_compute. split; reflexivity. Qed.


Lemma C3_session_token_takes_precedence_witness :
  issued (world_of creds_token INIT)
         (snd (open exn_msg engine_ok 0 (world_of creds_token INIT))) =
    ["LOAD 'json'"; "LOAD 'httpfs'"; "SET s3_region = 'us-east-1'";
     "SET s3_session_token = 'tok'"].
Proof.
  destruct (C3_session_token_takes_precedence exn_msg engine_ok 0
              (world_of creds_token INIT) "us-east-1" "tok")
    as (_ & _ & H & Hn).
  - cbn. discriminate.
  - reflexivity.
  - reflexivity.
  - rewrite (H (Hn (fun hist c => ex_intro _ 0 eq_refl))). reflexivity.
Defined.

Lemma C4_open_without_region_witness :
  issued (world_of creds_json INIT)
         (snd (open exn_msg engine_ok 0 (world_of creds_json INIT))) =
    ["LOAD 'json'"].
Proof.
  destruct (C4_open_without_region exn_msg engine_ok 0 (world_of creds_json INIT))
    as (_ & _ & _ & H & Hn).
  - cbn. discriminate.
  - reflexivity.
  - rewrite (H (Hn (fun hist c => ex_intro _ 0 eq_refl))). reflexivity.
Defined.

(** With [httpfs] among the configured extensions and no region,
    [LOAD 'httpfs'] is issued. *)
Lemma C4_counterexample :
  ~ (forall py_str engine, open_without_region_never_loads_httpfs py_str engine).
Proof.
  intros H.
  destruct (H exn_msg engine_ok 0 (world_of creds_httpfs INIT)) as (_ & Hno & _).
  - cbn. discriminate.
  - reflexivity.
  - apply Hno. vm_compute. left. reflexivity.
Qed.

Lemma C5_runtime_failure_fails_connection_witness :
  let r := open exn_msg (engine_refusing "LOAD 'json'") 0 (world_of creds_json INIT) in
  fst r = Raised (MkExn FailedToConnectException "Catalog Error" None) /\
  state (heap (snd r) 0) = FAIL /\
  handle (heap (snd r) 0) = None.
Proof.
  cbv zeta.
  destruct (C5_runtime_failure_fails_connection exn_msg (engine_refusing "LOAD 'json'") 0
              (world_of creds_json INIT) (MkExn RuntimeError "Catalog Error" None))
    as (H1 & H2 & H3 & _).
  - cbn. discriminate.
  - reflexivity.
  - reflexivity.
  - rewrite H1, H2, H3. repeat split.
Defined.

Lemma C6_open_is_idempotent_witness :
  fst (open exn_msg engine_ok 0 (world_of creds_json OPEN)) = Normal 0 /\
  new_calls (world_of creds_json OPEN)
            (snd (open exn_msg engine_ok 0 (world_of creds_json OPEN))) = [].
Proof.
  destruct (C6_open_is_idempotent exn_msg engine_ok 0 (world_of creds_json OPEN))
    as (H1 & _ & _ & H2 & _).
  - reflexivity.
  - split; [exact H1 | exact H2].
Defined.

Lemma C7_manager_is_single_threaded_witness :
  let p4 := {| threads := 4; profile_credentials := creds_json |} in
  let p1 := {| threads := 1; profile_credentials := creds_json |} in
  let w := world_of creds_json INIT in
  __init__ p4 w =
    (Raised (MkExn RuntimeException "dbt-duckdb only supports 1 thread at this time" None),
     w) /\
  __init__ p1 w = (Normal {| profile := p1 |}, w).
Proof.
  cbv zeta. split.
  - apply (proj1 (C7_manager_is_single_threaded
                    {| threads := 4; profile_credentials := creds_json |}
                    (world_of creds_json INIT))).
    cbn. lia.
  - apply (proj2 (C7_manager_is_single_threaded
                    {| threads := 1; profile_credentials := creds_json |}
                    (world_of creds_json INIT))).
    cbn. lia.
Defined.

Lemma C8_cursor_execute_witness :
  let cur := {| DuckDBCursorWrapper._cursor := 1 |} in
  let w := world_of creds_json OPEN in
  fst (DuckDBCursorWrapper_execute exn_msg (engine_refusing "select 1") cur "select 1" None w) =
    Raised (MkExn RuntimeException "Catalog Error" None) /\
  fst (DuckDBCursorWrapper_execute exn_msg engine_ok cur "select ?" (Some ["42"]) w) =
    Normal 0.
Proof.
  cbv zeta. split.
  - destruct (C8_cursor_execute exn_msg (engine_refusing "select 1")
                {| DuckDBCursorWrapper._cursor := 1 |} "select 1" None
                (world_of creds_json OPEN)) as (_ & _ & H & _).
    apply (H (MkExn RuntimeError "Catalog Error" None)); reflexivity.
  - destruct (C8_cursor_execute exn_msg engine_ok
                {| DuckDBCursorWrapper._cursor := 1 |} "select ?" (Some ["42"])
                (world_of creds_json OPEN)) as (_ & H & _).
    apply H; reflexivity.
Defined.

Lemma C9_access_key_without_secret_witness :
  let w := world_of creds_key_without_secret INIT in
  fst (open exn_msg engine_ok 0 w) = Normal 0 /\
  state (heap (snd (open exn_msg engine_ok 0 w)) 0) = OPEN /\
  issued w (snd (open exn_msg engine_ok 0 w)) =
    ["LOAD 'httpfs'"; "SET s3_region = 'us-east-1'";
     "SET s3_access_key_id = 'AKIA'"; "SET s3_secret_access_key = 'None'"].
Proof.
  cbv zeta.
  destruct (C9_access_key_without_secret exn_msg engine_ok 0
              (world_of creds_key_without_secret INIT) "us-east-1" "AKIA")
    as (_ & _ & H).
  - cbn. discriminate.
  - reflexivity.
  - reflexivity.
  - reflexivity.
  - reflexivity.
  - exact (H (fun hist c => ex_intro _ 0 eq_refl)).
Defined.

Lemma C10_open_reconnects_witness :
  let w := world_of creds_json FAIL in
  new_calls w (snd (open exn_msg engine_ok 0 w)) =
    [Connect ":memory:" false; Cursor 0; Execute 0 "LOAD 'json'"].
Proof.
  cbv zeta.
  destruct (C10_open_reconnects exn_msg engine_ok 0 (world_of creds_json FAIL))
    as (_ & _ & _ & H).
  - left. reflexivity.
  - rewrite (H (fun hist c => ex_intro _ 0 eq_refl)). reflexivity.
Defined.

(* ------------------------------------------------------------------ *)
(** * Concrete runs of the further properties *)
(* ------------------------------------------------------------------ *)

Lemma open_key_secret_pair_witness :
  issued (world_of creds_key_secret INIT)
         (snd (open exn_msg engine_ok 0 (world_of creds_key_secret INIT))) =
    ["LOAD 'json'"; "LOAD 'httpfs'"; "SET s3_region = 'us-east-1'";
     "SET s3_access_key_id = 'AKIA'"; "SET s3_secret_access_key = 'hunter2'"].
Proof.
  destruct (open_key_secret_pair exn_msg engine_ok 0
              (world_of creds_key_secret INIT) "us-east-1" "AKIA" "hunter2")
    as (_ & _ & H & Hn).
  - cbn. discriminate.
  - reflexivity.
  - reflexivity.
  - reflexivity.
  - reflexivity.
  - rewrite (H (proj1 (Hn (fun hist c => ex_intro _ 0 eq_refl)))). reflexivity.
Defined.

Lemma open_rejects_after_region_statements_witness :
  issued (world_of creds_region_only INIT)
         (snd (open exn_msg engine_ok 0 (world_of creds_region_only INIT))) =
    ["LOAD 'httpfs'"; "SET s3_region = 'us-east-1'"] /\
  state (heap (snd (open exn_msg engine_ok 0 (world_of creds_region_only INIT))) 0) = FAIL.
Proof.
  destruct (open_rejects_after_region_statements exn_msg engine_ok 0
              (world_of creds_region_only INIT) "us-east-1")
    as (_ & _ & H).
  - cbn. discriminate.
  - reflexivity.
  - reflexivity.
  - reflexivity.
  - destruct (H (fun hist c => ex_intro _ 0 eq_refl)) as (_ & H2 & _ & H4).
    split; [exact H4 | exact H2].
Defined.

Lemma open_connect_failure_passes_witness :
  let r := open exn_msg (engine_connect_raising value_error) 0
             (world_of creds_json CLOSED) in
  fst r = Raised value_error /\ state (heap (snd r) 0) = CLOSED.
Proof.
  cbv zeta.
  destruct (open_connect_failure_passes exn_msg (engine_connect_raising value_error) 0
              (world_of creds_json CLOSED) value_error)
    as (H1 & H2 & _).
  - cbn. discriminate.
  - reflexivity.
  - reflexivity.
  - rewrite H1, H2. split; reflexivity.
Defined.

Lemma open_bootstrap_failure_leaves_open_witness :
  let r := open exn_msg (engine_raising "LOAD 'json'" value_error) 0
             (world_of creds_json INIT) in
  fst r = Raised value_error /\ state (heap (snd r) 0) = OPEN.
Proof.
  cbv zeta. split; [reflexivity |].
  destruct (open_bootstrap_failure_leaves_open exn_msg
              (engine_raising "LOAD 'json'" value_error) 0
              (world_of creds_json INIT) value_error 0 0)
    as (H & _).
  - cbn. discriminate.
  - reflexivity.
  - reflexivity.
  - reflexivity.
  - reflexivity.
  - exact H.
Defined.

Lemma open_raises_classified_witness :
  exn_class (MkExn FailedToConnectException "Catalog Error" None) =
    FailedToConnectException /\
  state (heap (snd (open exn_msg (engine_refusing "LOAD 'json'") 0
                      (world_of creds_json INIT))) 0) = FAIL.
Proof.
  destruct (open_raises_classified exn_msg (engine_refusing "LOAD 'json'") 0
              (world_of creds_json INIT)
              (MkExn FailedToConnectException "Catalog Error" None))
    as [(H & _) | (H1 & _ & H3 & _)].
  - reflexivity.
  - discriminate H.
  - split; [exact H1 | exact H3].
Defined.

Lemma open_frame_witness :
  heap (snd (open exn_msg engine_ok 0 (world_of creds_json INIT))) 1 =
    heap (world_of creds_json INIT) 1.
Proof.
  apply (proj1 (open_frame exn_msg engine_ok 0 (world_of creds_json INIT))).
  discriminate.
Defined.

Lemma open_then_open_witness :
  let w1 := snd (open exn_msg engine_ok 0 (world_of creds_json INIT)) in
  fst (open exn_msg engine_ok 0 w1) = Normal 0 /\
  new_calls w1 (snd (open exn_msg engine_ok 0 w1)) = [].
Proof.
  cbv zeta.
  destruct (open_then_open exn_msg engine_ok 0 (world_of creds_json INIT))
    as (H1 & H2 & _).
  - reflexivity.
  - split; [exact H1 | exact H2].
Defined.

Lemma open_retry_after_failure_witness :
  let w1 := snd (open exn_msg engine_flaky 0 (world_of creds_json INIT)) in
  state (heap w1 0) = FAIL /\
  handle (heap w1 0) = None /\
  state (heap (snd (open exn_msg engine_flaky 0 w1)) 0) = OPEN.
Proof.
  cbv zeta.
  destruct (open_retry_after_failure exn_msg engine_flaky 0 (world_of creds_json INIT)
              (MkExn FailedToConnectException "IO Error" None))
    as (H1 & H2 & _ & H4).
  - reflexivity.
  - reflexivity.
  - split; [exact H1 |]. split; [exact H2 |].
    destruct H4 as (_ & H & _); [reflexivity | exact H].
Defined.

Lemma open_connects_once_read_write_witness :
  filter is_connect
    (new_calls (world_of creds_token FAIL)
       (snd (open exn_msg engine_ok 0 (world_of creds_token FAIL)))) =
    [Connect ":memory:" false].
Proof.
  apply (proj1 (open_connects_once_read_write exn_msg engine_ok 0
                  (world_of creds_token FAIL) ltac:(cbn; discriminate))).
Defined.

Lemma open_stops_at_first_failure_witness :
  exists v, engine_ok ([] ++ [Connect ":memory:" false])%list (Cursor 0) = Normal v.
Proof.
  apply (open_stops_at_first_failure exn_msg engine_ok 0 (world_of creds_json INIT)
           [Connect ":memory:" false] [Execute 0 "LOAD 'json'"] (Cursor 0)).
  - reflexivity.
  - discriminate.
Defined.

Lemma exception_handler_effects_witness :
  calls (snd (exception_handler exn_msg "select 1" "master" (raise value_error)
                (world_of creds_json OPEN))) = [] /\
  fst (exception_handler exn_msg "select 1" "master" (ret tt)
         (world_of creds_json OPEN)) = Normal tt.
Proof.
  split.
  - apply (proj1 (exception_handler_effects exn_msg "select 1" "master"
                    (raise value_error) (world_of creds_json OPEN))).
  - destruct (exception_handler_effects exn_msg "select 1" "master"
                (ret tt) (world_of creds_json OPEN)) as (_ & _ & lines & _ & H).
    apply (H tt). reflexivity.
Defined.

Lemma exception_handler_escapes_witness :
  let e := MkExn RuntimeException "bad value" (Some value_error) in
  isinstance e RuntimeException = true \/
  isinstance e Exception = false \/
  (isinstance e StopIteration = true /\
   fst (raise (A := unit) value_error (world_of creds_json OPEN)) = Raised e).
Proof.
  cbv zeta.
  apply (proj2 (exception_handler_escapes exn_msg "select 1" "master" (raise value_error)
                  (world_of creds_json OPEN)
                  (MkExn RuntimeException "bad value" (Some value_error)) eq_refl)).
Defined.

Lemma exception_handler_nested_witness :
  exception_handler exn_msg "select 2" "other"
    (exception_handler exn_msg "select 1" "master" (raise value_error))
    (world_of creds_json OPEN) =
  exception_handler exn_msg "select 1" "master" (raise value_error)
    (world_of creds_json OPEN).
Proof.
  destruct (exception_handler_nested exn_msg "select 1" "select 2" "master" "other"
              (raise value_error) (world_of creds_json OPEN)) as (_ & _ & _ & H).
  apply H. intros e He. inversion He. reflexivity.
Defined.

Lemma scope_around_cursor_execute_witness :
  fst (exception_handler exn_msg "select 1" "master"
         (_ <- DuckDBCursorWrapper_execute exn_msg (engine_refusing "select 1")
                 {| DuckDBCursorWrapper._cursor := 1 |} "select 1" None ;; ret tt)
         (world_of creds_json OPEN)) =
    Raised (MkExn RuntimeException "Catalog Error" None).
Proof.
  destruct (scope_around_cursor_execute exn_msg (engine_refusing "select 1")
              {| DuckDBCursorWrapper._cursor := 1 |} "select 1" "master" None
              (world_of creds_json OPEN)) as (_ & H & _).
  apply (H (MkExn RuntimeError "Catalog Error" None)); reflexivity.
Defined.

Lemma scope_around_connection_execute_witness :
  fst (exception_handler exn_msg "select 1" "master"
         (_ <- DuckDBConnectionWrapper_execute (engine_refusing "select 1")
                 (fresh_handle (world_of creds_json OPEN)) "select 1" ;; ret tt)
         (world_of creds_json OPEN)) = Normal tt.
Proof.
  apply (scope_around_connection_execute exn_msg (engine_refusing "select 1")
           (fresh_handle (world_of creds_json OPEN)) "select 1" "master"
           (world_of creds_json OPEN) (MkExn RuntimeError "Catalog Error" None));
    reflexivity.
Defined.

Lemma cursor_execute_raises_translated_witness :
  exn_class (MkExn RuntimeException "Catalog Error" None) = RuntimeException /\
  exn_cause (MkExn RuntimeException "Catalog Error" None) = None.
Proof.
  destruct (cursor_execute_raises_translated exn_msg (engine_refusing "select 1")
              {| DuckDBCursorWrapper._cursor := 1 |} "select 1" None
              (world_of creds_json OPEN)) as (_ & _ & _ & H).
  apply H; reflexivity.
Defined.

